(** * VisionAcuity: the session control loop of [src/App.jsx]

    A shallow embedding of the React component [App]: its state variables
    ([useState]), its refs ([useRef]), the sockets and interval timers it
    creates in the browser, and the messages it puts on the wire.  Every
    callback of the component is a function on [State]; the browser is an
    event loop that delivers one event at a time ([step]).

    What is modelled, and how:
    - [event.data] after [JSON.parse] is an [InMsg]: any subset of the six
      fields of the wire protocol, each of the type the protocol gives it.
      A payload that is not JSON, or whose fields have other types, is
      outside the model.
    - [Number::toString], used by the template literal of the distance
      display, belongs to the JavaScript runtime and is a Section variable.
    - a click is atomic with the re-render it causes and with the effects of
      that render (React flushes the state set in a discrete event, and the
      effects of that render, before the click returns).  State set in a
      socket or timer callback is committed in a later task: until then
      the buttons in the document are those of the last render a click (or
      the mount) committed, and a click can land on them ([page]).
    - the frame-rate sampler (the first [useEffect], with [fps] and
      [lastFrameTimeRef]) is not modelled; [frameCountRef] is, since
      [sendFrame] writes it. *)

From Stdlib Require Import String Ascii Bool PrimFloat Lia.
From stdpp Require Import base list strings.

Open Scope string_scope.

(** ** JavaScript values *)

(** Truthiness of a string: every string but the empty one. *)
Definition truthy_string (s : string) : bool := negb (String.eqb s EmptyString).

(** Truthiness of a number: every number but [+0], [-0] and [NaN]. *)
Definition truthy_number (x : float) : bool :=
  negb (PrimFloat.eqb x 0%float) && negb (PrimFloat.is_nan x).

(** [v && ...] on a property that may be [undefined]. *)
Definition truthy_field {A} (t : A -> bool) (v : option A) : bool :=
  match v with Some a => t a | None => false end.

Definition lower_ascii (c : ascii) : ascii :=
  let n := nat_of_ascii c in
  if (65 <=? n)%nat && (n <=? 90)%nat then ascii_of_nat (n + 32) else c.

(** [String.prototype.toLowerCase] on the bytes of the text.  Only the
    letters [A]-[Z] are folded; that is exact for the one use the component
    makes of it, a search for an ASCII marker. *)
Fixpoint toLowerCase (s : string) : string :=
  match s with
  | EmptyString => EmptyString
  | String c t => String (lower_ascii c) (toLowerCase t)
  end.

(** [hay.includes(needle)]. *)
Fixpoint includes (hay needle : string) : bool :=
  String.prefix needle hay
  || match hay with
     | EmptyString => false
     | String _ t => includes t needle
     end.

(** ** The wire protocol *)

(** One detection of the [faces] array. *)
Record Face := { distance : option float }.

(** Service to client: the parsed [data] of [onmessage]. *)
Record InMsg := {
  success : option bool;
  processed_image : option string;
  focal_length : option float;
  faces : option (list Face);
  message : option string;
  error : option string
}.

(** Client to service: the object given to [JSON.stringify]. *)
Inductive OutMsg :=
| Command (command : string)
| CommandImage (command image : string)
| Frame (image : string).

(** ** The browser objects the component holds *)

Inductive ReadyState := CONNECTING | OPEN | CLOSING | CLOSED.

Definition is_open (r : ReadyState) : bool :=
  match r with OPEN => true | _ => false end.

(** A connection that is neither closing nor closed. *)
Definition is_live (r : ReadyState) : bool :=
  match r with CONNECTING | OPEN => true | _ => false end.

(** A [WebSocket] made by the effect: its state, and the value of
    [isMeasuring] its [onmessage] closure captured. *)
Record Socket := {
  readyState : ReadyState;
  closure_isMeasuring : bool
}.

(** The four action buttons of the page, each rendered under the condition
    the JSX gives it, in the order of the JSX. *)
Inductive Button := Calibrate | Capture | MeasureDistance | StopMeasuring.

Record State := {
  (* useState *)
  showCamera : bool;
  currentDistance : string;
  focalLength : float;
  processedImage : option string;
  connectionStatus : string;
  isCalibrating : bool;
  isCalibrated : bool;
  statusMessage : string;
  isMeasuring : bool;
  (* useRef *)
  ws : option nat;
  detectionInterval : option positive;
  frameCountRef : nat;
  (* the browser: every socket made so far, the running intervals, the next
     interval id, and what went out, with the socket it went out on *)
  sockets : list Socket;
  timers : list positive;
  nextTimer : positive;
  sent : list (nat * OutMsg);
  (* the document: the action buttons of the last render that a click or
     the mount committed *)
  page : list Button
}.

(** The [<Webcam ref={webcamRef}>] element is rendered exactly when
    [showCamera] holds, so [webcamRef.current] is set exactly then. *)
Definition webcamRef (s : State) : bool := showCamera s.

Definition setShowCamera (v : bool) (s : State) : State :=
  {| showCamera := v; currentDistance := currentDistance s;
     focalLength := focalLength s; processedImage := processedImage s;
     connectionStatus := connectionStatus s; isCalibrating := isCalibrating s;
     isCalibrated := isCalibrated s; statusMessage := statusMessage s;
     isMeasuring := isMeasuring s; ws := ws s;
     detectionInterval := detectionInterval s; frameCountRef := frameCountRef s;
     sockets := sockets s; timers := timers s; nextTimer := nextTimer s;
     sent := sent s; page := page s |}.

Definition setCurrentDistance (v : string) (s : State) : State :=
  {| showCamera := showCamera s; currentDistance := v;
     focalLength := focalLength s; processedImage := processedImage s;
     connectionStatus := connectionStatus s; isCalibrating := isCalibrating s;
     isCalibrated := isCalibrated s; statusMessage := statusMessage s;
     isMeasuring := isMeasuring s; ws := ws s;
     detectionInterval := detectionInterval s; frameCountRef := frameCountRef s;
     sockets := sockets s; timers := timers s; nextTimer := nextTimer s;
     sent := sent s; page := page s |}.

Definition setFocalLength (v : float) (s : State) : State :=
  {| showCamera := showCamera s; currentDistance := currentDistance s;
     focalLength := v; processedImage := processedImage s;
     connectionStatus := connectionStatus s; isCalibrating := isCalibrating s;
     isCalibrated := isCalibrated s; statusMessage := statusMessage s;
     isMeasuring := isMeasuring s; ws := ws s;
     detectionInterval := detectionInterval s; frameCountRef := frameCountRef s;
     sockets := sockets s; timers := timers s; nextTimer := nextTimer s;
     sent := sent s; page := page s |}.

Definition setProcessedImage (v : option string) (s : State) : State :=
  {| showCamera := showCamera s; currentDistance := currentDistance s;
     focalLength := focalLength s; processedImage := v;
     connectionStatus := connectionStatus s; isCalibrating := isCalibrating s;
     isCalibrated := isCalibrated s; statusMessage := statusMessage s;
     isMeasuring := isMeasuring s; ws := ws s;
     detectionInterval := detectionInterval s; frameCountRef := frameCountRef s;
     sockets := sockets s; timers := timers s; nextTimer := nextTimer s;
     sent := sent s; page := page s |}.

Definition setConnectionStatus (v : string) (s : State) : State :=
  {| showCamera := showCamera s; currentDistance := currentDistance s;
     focalLength := focalLength s; processedImage := processedImage s;
     connectionStatus := v; isCalibrating := isCalibrating s;
     isCalibrated := isCalibrated s; statusMessage := statusMessage s;
     isMeasuring := isMeasuring s; ws := ws s;
     detectionInterval := detectionInterval s; frameCountRef := frameCountRef s;
     sockets := sockets s; timers := timers s; nextTimer := nextTimer s;
     sent := sent s; page := page s |}.

Definition setIsCalibrating (v : bool) (s : State) : State :=
  {| showCamera := showCamera s; currentDistance := currentDistance s;
     focalLength := focalLength s; processedImage := processedImage s;
     connectionStatus := connectionStatus s; isCalibrating := v;
     isCalibrated := isCalibrated s; statusMessage := statusMessage s;
     isMeasuring := isMeasuring s; ws := ws s;
     detectionInterval := detectionInterval s; frameCountRef := frameCountRef s;
     sockets := sockets s; timers := timers s; nextTimer := nextTimer s;
     sent := sent s; page := page s |}.

Definition setIsCalibrated (v : bool) (s : State) : State :=
  {| showCamera := showCamera s; currentDistance := currentDistance s;
     focalLength := focalLength s; processedImage := processedImage s;
     connectionStatus := connectionStatus s; isCalibrating := isCalibrating s;
     isCalibrated := v; statusMessage := statusMessage s;
     isMeasuring := isMeasuring s; ws := ws s;
     detectionInterval := detectionInterval s; frameCountRef := frameCountRef s;
     sockets := sockets s; timers := timers s; nextTimer := nextTimer s;
     sent := sent s; page := page s |}.

Definition setStatusMessage (v : string) (s : State) : State :=
  {| showCamera := showCamera s; currentDistance := currentDistance s;
     focalLength := focalLength s; processedImage := processedImage s;
     connectionStatus := connectionStatus s; isCalibrating := isCalibrating s;
     isCalibrated := isCalibrated s; statusMessage := v;
     isMeasuring := isMeasuring s; ws := ws s;
     detectionInterval := detectionInterval s; frameCountRef := frameCountRef s;
     sockets := sockets s; timers := timers s; nextTimer := nextTimer s;
     sent := sent s; page := page s |}.

Definition setIsMeasuring (v : bool) (s : State) : State :=
  {| showCamera := showCamera s; currentDistance := currentDistance s;
     focalLength := focalLength s; processedImage := processedImage s;
     connectionStatus := connectionStatus s; isCalibrating := isCalibrating s;
     isCalibrated := isCalibrated s; statusMessage := statusMessage s;
     isMeasuring := v; ws := ws s;
     detectionInterval := detectionInterval s; frameCountRef := frameCountRef s;
     sockets := sockets s; timers := timers s; nextTimer := nextTimer s;
     sent := sent s; page := page s |}.

(** Writes to the refs and to the browser side of the state. *)
Definition with_refs (w : option nat) (d : option positive) (n : nat)
    (s : State) : State :=
  {| showCamera := showCamera s; currentDistance := currentDistance s;
     focalLength := focalLength s; processedImage := processedImage s;
     connectionStatus := connectionStatus s; isCalibrating := isCalibrating s;
     isCalibrated := isCalibrated s; statusMessage := statusMessage s;
     isMeasuring := isMeasuring s; ws := w;
     detectionInterval := d; frameCountRef := n;
     sockets := sockets s; timers := timers s; nextTimer := nextTimer s;
     sent := sent s; page := page s |}.

Definition with_browser (k : list Socket) (t : list positive) (n : positive)
    (o : list (nat * OutMsg)) (s : State) : State :=
  {| showCamera := showCamera s; currentDistance := currentDistance s;
     focalLength := focalLength s; processedImage := processedImage s;
     connectionStatus := connectionStatus s; isCalibrating := isCalibrating s;
     isCalibrated := isCalibrated s; statusMessage := statusMessage s;
     isMeasuring := isMeasuring s; ws := ws s;
     detectionInterval := detectionInterval s; frameCountRef := frameCountRef s;
     sockets := k; timers := t; nextTimer := n; sent := o; page := page s |}.

Definition set_ws (w : option nat) (s : State) : State :=
  with_refs w (detectionInterval s) (frameCountRef s) s.
Definition set_detectionInterval (d : option positive) (s : State) : State :=
  with_refs (ws s) d (frameCountRef s) s.
Definition set_frameCountRef (n : nat) (s : State) : State :=
  with_refs (ws s) (detectionInterval s) n s.
Definition set_sockets (k : list Socket) (s : State) : State :=
  with_browser k (timers s) (nextTimer s) (sent s) s.
Definition set_sent (o : list (nat * OutMsg)) (s : State) : State :=
  with_browser (sockets s) (timers s) (nextTimer s) o s.

(** ** Browser primitives *)

(** [ws.current && ws.current.readyState === WebSocket.OPEN]. *)
Definition ws_is_open (s : State) : bool :=
  match ws s with
  | Some i =>
      match sockets s !! i with
      | Some k => is_open (readyState k)
      | None => false
      end
  | None => false
  end.

(** [ws.current.send(JSON.stringify(m))]: the message goes out on the
    socket the ref points to. *)
Definition ws_send (m : OutMsg) (s : State) : State :=
  match ws s with
  | Some i => set_sent (sent s ++ [(i, m)]) s
  | None => s
  end.

Definition set_readyState (i : nat) (r : ReadyState) (s : State) : State :=
  match sockets s !! i with
  | Some k =>
      set_sockets
        (<[i := {| readyState := r;
                   closure_isMeasuring := closure_isMeasuring k |}]> (sockets s)) s
  | None => s
  end.

(** [socket.close()]: starts the closing handshake of a live connection and
    does nothing to one that is closing or closed. *)
Definition ws_close (i : nat) (s : State) : State :=
  match sockets s !! i with
  | Some k => if is_live (readyState k) then set_readyState i CLOSING s else s
  | None => s
  end.

(** [setInterval(f, 100)]: a fresh id, returned with the new state. *)
Definition setInterval (s : State) : positive * State :=
  (nextTimer s,
   with_browser (sockets s) (timers s ++ [nextTimer s])
     (Pos.succ (nextTimer s)) (sent s) s).

Definition clearInterval (t : positive) (s : State) : State :=
  with_browser (sockets s)
    (List.filter (fun u => negb (Pos.eqb u t)) (timers s))
    (nextTimer s) (sent s) s.

(** ** The page *)

Definition set_page (b : list Button) (s : State) : State :=
  {| showCamera := showCamera s; currentDistance := currentDistance s;
     focalLength := focalLength s; processedImage := processedImage s;
     connectionStatus := connectionStatus s; isCalibrating := isCalibrating s;
     isCalibrated := isCalibrated s; statusMessage := statusMessage s;
     isMeasuring := isMeasuring s; ws := ws s;
     detectionInterval := detectionInterval s; frameCountRef := frameCountRef s;
     sockets := sockets s; timers := timers s; nextTimer := nextTimer s;
     sent := sent s; page := b |}.

Definition buttons (s : State) : list Button :=
  ((if negb (isCalibrated s) && negb (isCalibrating s) then [Calibrate] else [])
   ++ (if isCalibrating s then [Capture] else [])
   ++ (if isCalibrated s && negb (isMeasuring s) then [MeasureDistance] else [])
   ++ (if isMeasuring s then [StopMeasuring] else []))%list.

Definition Button_eqb (a b : Button) : bool :=
  match a, b with
  | Calibrate, Calibrate | Capture, Capture
  | MeasureDistance, MeasureDistance | StopMeasuring, StopMeasuring => true
  | _, _ => false
  end.

(** A render commits: the document shows the buttons of the state. *)
Definition render (s : State) : State := set_page (buttons s) s.

(** The end of a click: when the [onClick] callback has set state, React
    renders and commits before the click returns; when it has set none,
    nothing is rendered. *)
Definition after_click (has_set_state : bool) (s : State) : State :=
  if has_set_state then render s else s.

(** A button can be clicked when it is in the document.  The state that a
    socket callback has set is committed in a later task, and the click may
    come before or after that task: so the document is either the page that
    the last click or the mount committed ([page]), or the page that the
    current state renders ([buttons]).  That later task is not an event of
    its own: a state stands for the moments before and after it. *)
Definition clickable (b : Button) (s : State) : bool :=
  existsb (Button_eqb b) (page s) || existsb (Button_eqb b) (buttons s).

(** ** The callbacks of the component *)

(** [useState] initial values and [useRef(null)]; before the first render
    the document has no button, and no socket exists before the first
    effect runs.  Interval ids are positive. *)
Definition initial : State :=
  {| showCamera := false; currentDistance := "0m"; focalLength := 0%float;
     processedImage := None; connectionStatus := "disconnected";
     isCalibrating := false; isCalibrated := false; statusMessage := EmptyString;
     isMeasuring := false; ws := None; detectionInterval := None;
     frameCountRef := 0; sockets := []; timers := []; nextTimer := 1%positive;
     sent := []; page := [] |}.

(** [sendFrame]; [shot] is what [getScreenshot()] returns when it is
    called ([None] for [null]). *)
Definition sendFrame (shot : option string) (s : State) : State :=
  if negb (webcamRef s) || negb (ws_is_open s) then s
  else
    match shot with
    | Some imageSrc =>
        if truthy_string imageSrc
        then set_frameCountRef (S (frameCountRef s)) (ws_send (Frame imageSrc) s)
        else s
    | None => s
    end.

Definition onopen (s : State) : State := setConnectionStatus "connected" s.
Definition onclose (s : State) : State := setConnectionStatus "disconnected" s.
Definition onerror (s : State) : State := setConnectionStatus "error" s.

Definition calibration_marker : string := "calibration complete".

(** [data.message?.toLowerCase().includes("calibration complete")]. *)
Definition mentions_calibration (data : InMsg) : bool :=
  match message data with
  | Some m => includes (toLowerCase m) calibration_marker
  | None => false
  end.

Definition confirmation_text : string :=
  "✅ Calibration complete! You can now measure distance.".

Definition startCalibration (s : State) : State :=
  if ws_is_open s then
    setStatusMessage "🧍 Stand at one-arm distance and click 'Capture'"
      (setShowCamera true
        (setIsCalibrated false
          (setIsCalibrating true
            (ws_send (Command "start_calibration") s))))
  else s.

(** [captureCalibration]; [webcamRef.current?.getScreenshot()] is
    [undefined] while the camera element is not rendered. *)
Definition captureCalibration (shot : option string) (s : State) : State :=
  let imageSrc := if webcamRef s then shot else None in
  match imageSrc with
  | Some img =>
      if truthy_string img && ws_is_open s
      then ws_send (CommandImage "capture" img) s
      else s
  | None => s
  end.

Definition startMeasuringDistance (s : State) : State :=
  if ws_is_open s then
    let s1 := setIsMeasuring true (ws_send (Command "start_distance") s) in
    let '(t, s2) := setInterval s1 in
    setStatusMessage "📏 Measuring distance..."
      (set_detectionInterval (Some t) s2)
  else s.

Definition stopMeasuringDistance (s : State) : State :=
  let s1 := if ws_is_open s then ws_send (Command "stop_all") s else s in
  let s2 :=
    match detectionInterval s1 with
    | Some t => set_detectionInterval None (clearInterval t s1)
    | None => s1
    end in
  setProcessedImage None
    (setStatusMessage "Measurement stopped"
      (setCurrentDistance "0m"
        (setIsMeasuring false s2))).

Section Runtime.

(** [Number::toString] of the JavaScript runtime. *)
Variable number_to_string : float -> string.

(** The text given to [setCurrentDistance]:
    [data.faces[0].distance > 0 ? `${data.faces[0].distance}m` : 'Calculating...'];
    a missing [distance] is [undefined], and [undefined > 0] is false. *)
Definition distance_text (f : Face) : string :=
  match distance f with
  | Some d =>
      if PrimFloat.ltb 0%float d then number_to_string d +:+ "m"
      else "Calculating..."
  | None => "Calculating..."
  end.

(** [ws.current.onmessage], as made by the effect run in which [isMeasuring]
    had the value [isMeasuring_c]. *)
Definition onmessage (isMeasuring_c : bool) (data : InMsg) (s : State) : State :=
  let s1 :=
    if truthy_field id (success data) then
      let a :=
        match processed_image data with
        | Some img => if truthy_string img then setProcessedImage (Some img) s else s
        | None => s
        end in
      let b :=
        match focal_length data with
        | Some f => if truthy_number f then setFocalLength f a else a
        | None => a
        end in
      let c :=
        if mentions_calibration data
        then setStatusMessage confirmation_text
               (setIsCalibrated true (setIsCalibrating false b))
        else b in
      match faces data with
      | Some (f0 :: _) =>
          if isMeasuring_c then setCurrentDistance (distance_text f0) c else c
      | _ => c
      end
    else s in
  let s2 :=
    match message data with
    | Some m => if truthy_string m then setStatusMessage m s1 else s1
    | None => s1
    end in
  match error data with
  | Some e => if truthy_string e then setStatusMessage ("Error: " +:+ e) s2 else s2
  | None => s2
  end.

(** ** The effect that owns the connection: [useEffect(..., [isMeasuring])] *)

(** The body: [new WebSocket(...)], stored in [ws.current], its handlers
    closing over the [isMeasuring] of this render. *)
Definition wsEffect (s : State) : State :=
  set_ws (Some (length (sockets s)))
    (set_sockets
       (sockets s ++ [{| readyState := CONNECTING;
                         closure_isMeasuring := isMeasuring s |}]) s).

(** The cleanup: [if (ws.current) ws.current.close()]. *)
Definition wsEffect_cleanup (s : State) : State :=
  match ws s with
  | Some i => ws_close i s
  | None => s
  end.

(** A render commits: the effect runs again, cleanup first, exactly when its
    dependency [isMeasuring] differs from the previous render's. *)
Definition commit (deps : bool) (s : State) : State :=
  if Bool.eqb deps (isMeasuring s) then s else wsEffect (wsEffect_cleanup s).

(** The component after its first render and the effects of that render. *)
Definition mount : State := wsEffect (render initial).

(** ** The event loop *)

Inductive Event :=
| ClickCalibrate
| ClickCapture (shot : option string)
| ClickMeasure
| ClickStop
| WsOpen (i : nat)
| WsClose (i : nat)
| WsError (i : nat)
| WsMessage (i : nat) (data : InMsg)
| IntervalTick (t : positive) (shot : option string).

(** What the callback of an event does, or [None] when the browser cannot
    deliver the event in this state: a button that is not in the document
    cannot be clicked, a socket opens once, reports messages only while open
    and closes once, and an interval fires only while it is set.  An error
    event may come to any socket at any time.  [startCalibration] and
    [startMeasuringDistance] set state exactly when the channel is open,
    [stopMeasuringDistance] always, [captureCalibration] never. *)
Definition handle (s : State) (e : Event) : option State :=
  match e with
  | ClickCalibrate =>
      if clickable Calibrate s
      then Some (after_click (ws_is_open s) (startCalibration s)) else None
  | ClickCapture shot =>
      if clickable Capture s
      then Some (after_click false (captureCalibration shot s)) else None
  | ClickMeasure =>
      if clickable MeasureDistance s
      then Some (after_click (ws_is_open s) (startMeasuringDistance s)) else None
  | ClickStop =>
      if clickable StopMeasuring s
      then Some (after_click true (stopMeasuringDistance s)) else None
  | WsOpen i =>
      match sockets s !! i with
      | Some k =>
          match readyState k with
          | CONNECTING => Some (onopen (set_readyState i OPEN s))
          | _ => None
          end
      | None => None
      end
  | WsClose i =>
      match sockets s !! i with
      | Some k =>
          match readyState k with
          | CLOSED => None
          | _ => Some (onclose (set_readyState i CLOSED s))
          end
      | None => None
      end
  | WsError i =>
      match sockets s !! i with
      | Some _ => Some (onerror s)
      | None => None
      end
  | WsMessage i data =>
      match sockets s !! i with
      | Some k =>
          if is_open (readyState k)
          then Some (onmessage (closure_isMeasuring k) data s)
          else None
      | None => None
      end
  | IntervalTick t shot =>
      if existsb (Pos.eqb t) (timers s) then Some (sendFrame shot s) else None
  end.

(** One turn of the event loop: the callback, then the effects of the
    render it causes. *)
Definition step (s : State) (e : Event) : option State :=
  match handle s e with
  | Some s' => Some (commit (isMeasuring s) s')
  | None => None
  end.

Fixpoint run (evs : list Event) (s : State) : option State :=
  match evs with
  | [] => Some s
  | e :: rest =>
      match step s e with
      | Some s' => run rest s'
      | None => None
      end
  end.

(** The states a mounted session can be in: the state variables hold the
    values the setters have given them, [page] what has been committed. *)
Definition reachable (s : State) : Prop := exists evs, run evs mount = Some s.

(** ** The phase of the workflow

    The phase is what the buttons show: "Stop Measuring" while
    [isMeasuring], "Measure Distance" while [isCalibrated && !isMeasuring],
    "Capture" while [isCalibrating], and "Calibrate" while
    [!isCalibrated && !isCalibrating]. *)
Inductive Phase := Idle | Calibrating | Calibrated | Measuring.

Definition phase (s : State) : Phase :=
  if isMeasuring s then Measuring
  else if isCalibrated s then Calibrated
  else if isCalibrating s then Calibrating
  else Idle.

(** ** Notions the statements use *)

(** The messages sent between two states. *)
Definition sent_by (s s' : State) : list (nat * OutMsg) :=
  drop (length (sent s)) (sent s').

(** The button that starts a measurement. *)
Definition is_click_measure (e : Event) : bool :=
  match e with ClickMeasure => true | _ => false end.

(** A message that [onmessage] takes a processed image from. *)
Definition carries_image (e : Event) : bool :=
  match e with
  | WsMessage _ data =>
      truthy_field id (success data)
      && truthy_field truthy_string (processed_image data)
  | _ => false
  end.

(** The component is removed from the page: the cleanup of the connection
    effect, [if (ws.current) ws.current.close()], then the cleanup of the
    last effect, [if (detectionInterval.current) clearInterval(...)]. *)
Definition unmount (s : State) : State :=
  let s1 := wsEffect_cleanup s in
  match detectionInterval s1 with
  | Some t => clearInterval t s1
  | None => s1
  end.

Definition is_frame (m : OutMsg) : bool :=
  match m with Frame _ => true | _ => false end.

Definition is_command (c : string) (m : OutMsg) : bool :=
  match m with Command c' => String.eqb c c' | _ => false end.

(** How many of the messages of a list satisfy [p]. *)
Definition count_sent (p : OutMsg -> bool) (l : list (nat * OutMsg)) : nat :=
  length (List.filter (fun x => p (snd x)) l).

(** The messages that go out during a measurement: the frames and the
    command that ends it. *)
Definition measuring_message (m : OutMsg) : bool :=
  is_frame m || is_command "stop_all" m.

(** ** Invariants of a mounted session *)

(** The flags and the interval: measuring needs a finished calibration, a
    finished calibration ends the calibrating flag, the camera element is
    rendered while calibrating, and the one interval that runs is the one
    the ref holds, which is set exactly while measuring. *)
Record FlagsInv (s : State) : Prop := {
  inv_measuring_calibrated : isMeasuring s = true -> isCalibrated s = true;
  inv_calibrated_done : isCalibrated s = true -> isCalibrating s = false;
  inv_calibrating_camera : isCalibrating s = true -> showCamera s = true;
  inv_timers :
    timers s = match detectionInterval s with Some t => [t] | None => [] end;
  inv_interval :
    isMeasuring s = match detectionInterval s with Some _ => true | None => false end
}.

(** The connection: the ref holds the newest socket, whose closure saw the
    current [isMeasuring], and no other socket is live. *)
Definition SocketsInv (s : State) : Prop :=
  exists k cur,
    ws s = Some k /\ length (sockets s) = S k /\
    sockets s !! k = Some cur /\
    closure_isMeasuring cur = isMeasuring s /\
    forall j sock,
      sockets s !! j = Some sock -> is_live (readyState sock) = true -> j = k.

(** The page and the flags: the page shows one button; the flags are those
    of the render that committed it, or those a completion message has
    written since. *)
Definition PageInv (s : State) : Prop :=
  (page s = [Calibrate] /\ isMeasuring s = false /\
   isCalibrating s = false /\ showCamera s = false) \/
  (page s = [Capture] /\ isMeasuring s = false /\
   isCalibrating s = negb (isCalibrated s) /\ showCamera s = true) \/
  (page s = [MeasureDistance] /\ isMeasuring s = false /\
   isCalibrating s = false /\ isCalibrated s = true) \/
  (page s = [StopMeasuring] /\ isMeasuring s = true /\
   isCalibrating s = false /\ isCalibrated s = true).

Definition Inv (s : State) : Prop := FlagsInv s /\ SocketsInv s.

(** ** The effect and the render *)

Lemma ws_close_length i s : length (sockets (ws_close i s)) = length (sockets s).
Proof.
  unfold ws_close, set_readyState.
  destruct (sockets s !! i) as [k|] eqn:E; [|reflexivity].
  destruct (is_live (readyState k)); [|reflexivity].
  simpl. apply length_insert.
Qed.

Lemma ws_close_not_live i s j sock :
  (forall j' sock', sockets s !! j' = Some sock' ->
     is_live (readyState sock') = true -> j' = i) ->
  sockets (ws_close i s) !! j = Some sock -> is_live (readyState sock) = false.
Proof.
  intros Hold. unfold ws_close, set_readyState.
  destruct (sockets s !! i) as [k|] eqn:E.
  - destruct (is_live (readyState k)) eqn:L.
    + simpl. intros H.
      destruct (decide (i = j)) as [->|Hne].
      * rewrite list_lookup_insert_eq in H by (eapply lookup_lt_Some; eauto).
        injection H as <-. reflexivity.
      * rewrite list_lookup_insert_ne in H by assumption.
        destruct (is_live (readyState sock)) eqn:L'; [|reflexivity].
        exfalso. apply Hne. symmetry. eapply Hold; eauto.
    + intros H. destruct (is_live (readyState sock)) eqn:L'; [|reflexivity].
      assert (j = i) as -> by (eapply Hold; eauto). congruence.
  - intros H. destruct (is_live (readyState sock)) eqn:L'; [|reflexivity].
    assert (j = i) as -> by (eapply Hold; eauto). congruence.
Qed.

(** A render whose [isMeasuring] is the previous one runs no effect. *)
Lemma commit_same deps s : isMeasuring s = deps -> commit deps s = s.
Proof. intros <-. unfold commit. rewrite Bool.eqb_reflx. reflexivity. Qed.

Lemma commit_changed deps s :
  isMeasuring s <> deps -> commit deps s = wsEffect (wsEffect_cleanup s).
Proof.
  intros H. unfold commit. destruct (Bool.eqb deps (isMeasuring s)) eqn:E; [|reflexivity].
  apply Bool.eqb_prop in E. congruence.
Qed.

(** The effect touches the ref [ws] and the sockets, nothing else. *)
Lemma cleanup_frame s :
  let s' := wsEffect_cleanup s in
  showCamera s' = showCamera s /\ currentDistance s' = currentDistance s /\
  focalLength s' = focalLength s /\ processedImage s' = processedImage s /\
  connectionStatus s' = connectionStatus s /\ isCalibrating s' = isCalibrating s /\
  isCalibrated s' = isCalibrated s /\ statusMessage s' = statusMessage s /\
  isMeasuring s' = isMeasuring s /\ detectionInterval s' = detectionInterval s /\
  frameCountRef s' = frameCountRef s /\ timers s' = timers s /\
  nextTimer s' = nextTimer s /\ sent s' = sent s /\ ws s' = ws s.
Proof.
  unfold wsEffect_cleanup, ws_close, set_readyState. simpl.
  destruct (ws s) as [i|] eqn:W; [|rewrite W; repeat split; reflexivity].
  destruct (sockets s !! i) as [k|] eqn:E; [|rewrite W; repeat split; reflexivity].
  destruct (is_live (readyState k)); [|rewrite W; repeat split; reflexivity].
  simpl. rewrite W. repeat split; reflexivity.
Qed.

Lemma commit_frame deps s :
  let s' := commit deps s in
  showCamera s' = showCamera s /\ currentDistance s' = currentDistance s /\
  focalLength s' = focalLength s /\ processedImage s' = processedImage s /\
  connectionStatus s' = connectionStatus s /\ isCalibrating s' = isCalibrating s /\
  isCalibrated s' = isCalibrated s /\ statusMessage s' = statusMessage s /\
  isMeasuring s' = isMeasuring s /\ detectionInterval s' = detectionInterval s /\
  frameCountRef s' = frameCountRef s /\ timers s' = timers s /\
  nextTimer s' = nextTimer s /\ sent s' = sent s.
Proof.
  unfold commit. destruct (Bool.eqb deps (isMeasuring s)).
  - simpl. repeat split; reflexivity.
  - pose proof (cleanup_frame s) as H. simpl in H.
    destruct H as (?&?&?&?&?&?&?&?&?&?&?&?&?&?&?).
    unfold wsEffect. simpl. repeat split; assumption.
Qed.

Lemma commit_sockets_length deps s :
  length (sockets (commit deps s)) =
  length (sockets s) + (if Bool.eqb deps (isMeasuring s) then 0 else 1).
Proof.
  unfold commit. destruct (Bool.eqb deps (isMeasuring s)); [simpl; lia|].
  unfold wsEffect. simpl. rewrite length_app. simpl.
  unfold wsEffect_cleanup. destruct (ws s); [rewrite ws_close_length|]; lia.
Qed.

Lemma commit_sockets_inv deps s :
  (exists k,
     ws s = Some k /\ length (sockets s) = S k /\
     (forall j sock, sockets s !! j = Some sock ->
        is_live (readyState sock) = true -> j = k) /\
     (isMeasuring s = deps ->
      exists cur, sockets s !! k = Some cur /\ closure_isMeasuring cur = deps)) ->
  SocketsInv (commit deps s).
Proof.
  intros (k & W & L & Hold & Hcur).
  destruct (bool_decide (isMeasuring s = deps)) eqn:D.
  - apply bool_decide_eq_true in D. rewrite commit_same by assumption.
    destruct (Hcur D) as (cur & Hk & Hc).
    exists k, cur. repeat split; try assumption. congruence.
  - apply bool_decide_eq_false in D. rewrite commit_changed by assumption.
    pose proof (cleanup_frame s) as F. simpl in F.
    destruct F as (_&_&_&_&_&_&_&_&FM&_&_&_&_&_&FW).
    assert (LC : length (sockets (wsEffect_cleanup s)) = S k).
    { unfold wsEffect_cleanup. rewrite W, ws_close_length. assumption. }
    assert (NL : forall j sock, sockets (wsEffect_cleanup s) !! j = Some sock ->
                   is_live (readyState sock) = false).
    { unfold wsEffect_cleanup. rewrite W. intros j sock.
      apply ws_close_not_live. assumption. }
    exists (S k), {| readyState := CONNECTING; closure_isMeasuring := isMeasuring s |}.
    unfold wsEffect. simpl. rewrite LC, length_app. simpl.
    repeat split.
    + lia.
    + rewrite lookup_app_r by lia. rewrite LC, Nat.sub_diag. rewrite FM. reflexivity.
    + simpl. congruence.
    + intros j sock Hj Hl.
      destruct (decide (j < S k)) as [Hlt|Hge].
      * rewrite lookup_app_l in Hj by lia. apply NL in Hj. congruence.
      * apply lookup_lt_Some in Hj. rewrite length_app in Hj. simpl in Hj. lia.
Qed.

(** ** What a callback can touch *)

Ltac callbacks :=
  unfold handle, startCalibration, captureCalibration, startMeasuringDistance,
    stopMeasuringDistance, sendFrame, onopen, onclose, onerror,
    setInterval, clearInterval, ws_send, set_readyState, ws_is_open, webcamRef,
    truthy_field, after_click, render in *.

Ltac split_cases :=
  repeat match goal with
         | H : context [match ?x with _ => _ end] |- _ => destruct x eqn:?
         | |- context [match ?x with _ => _ end] => destruct x eqn:?
         end.

(** [onmessage] writes state variables only, and [isMeasuring] is not one
    of those it writes; the two calibration flags change together or not at
    all. *)
Lemma onmessage_frame c data s :
  let s' := onmessage c data s in
  showCamera s' = showCamera s /\ connectionStatus s' = connectionStatus s /\
  isMeasuring s' = isMeasuring s /\ ws s' = ws s /\
  detectionInterval s' = detectionInterval s /\
  frameCountRef s' = frameCountRef s /\ sockets s' = sockets s /\
  timers s' = timers s /\ nextTimer s' = nextTimer s /\ sent s' = sent s /\
  (isCalibrating s' = isCalibrating s /\ isCalibrated s' = isCalibrated s \/
   isCalibrating s' = false /\ isCalibrated s' = true).
Proof.
  unfold onmessage, truthy_field.
  destruct data as [su pi fl fa me er]; simpl.
  destruct su as [[|]|], pi as [pi|], fl as [fl|], fa as [[|f0 fa]|],
    me as [me|], er as [er|]; simpl;
    repeat match goal with |- context [if ?b then _ else _] => destruct b end;
    simpl; repeat split; auto.
Qed.

Lemma onmessage_page c data s : page (onmessage c data s) = page s.
Proof.
  unfold onmessage, truthy_field.
  destruct data as [su pi fl fa me er]; simpl.
  destruct su as [[|]|], pi as [pi|], fl as [fl|], fa as [[|f0 fa]|],
    me as [me|], er as [er|]; simpl;
    repeat match goal with |- context [if ?b then _ else _] => destruct b end;
    reflexivity.
Qed.

(** The effect does not touch the document. *)
Lemma commit_page deps s : page (commit deps s) = page s.
Proof.
  unfold commit, wsEffect, wsEffect_cleanup, ws_close, set_readyState.
  destruct (Bool.eqb deps (isMeasuring s)); [reflexivity|]. simpl.
  destruct (ws s) as [i|]; [|reflexivity].
  destruct (sockets s !! i) as [k|]; [|reflexivity].
  destruct (is_live (readyState k)); [|reflexivity].
  destruct (sockets s !! i); reflexivity.
Qed.

(** No callback moves the ref [ws]; only the socket events change a socket,
    and only its [readyState], never from closing or closed back to live. *)
Lemma handle_sockets s e h :
  handle s e = Some h ->
  ws h = ws s /\
  (sockets h = sockets s \/
   exists i k r,
     sockets s !! i = Some k /\
     (is_live r = true -> is_live (readyState k) = true) /\
     sockets h =
       <[i := {| readyState := r; closure_isMeasuring := closure_isMeasuring k |}]>
         (sockets s)).
Proof.
  intros H. destruct e; callbacks; simpl in H.
  1-4, 7, 9: split_cases; simplify_eq; simpl; (split; [congruence | left; reflexivity]).
  3: { destruct (sockets s !! i) as [k|]; [|discriminate].
       destruct (is_open (readyState k)); [|discriminate]. injection H as <-.
       pose proof (onmessage_frame (closure_isMeasuring k) data s) as F. simpl in F.
       destruct F as (_&_&_&F1&_&_&F2&_). rewrite F1, F2. auto. }
  - destruct (sockets s !! i) as [k|] eqn:E; [|discriminate].
    destruct (readyState k) eqn:R; try discriminate.
    simplify_eq. simpl. split; [reflexivity|].
    right. exists i, k, OPEN. rewrite R. auto.
  - destruct (sockets s !! i) as [k|] eqn:E; [|discriminate].
    split; [destruct (readyState k); simplify_eq; reflexivity|].
    right. exists i, k, CLOSED. split; [exact E|]. split; [discriminate|].
    destruct (readyState k); simplify_eq; reflexivity.
Qed.

(** Only the two measuring buttons change [isMeasuring]. *)
Lemma handle_isMeasuring s e h :
  handle s e = Some h ->
  isMeasuring h = isMeasuring s \/
  (e = ClickMeasure /\ isMeasuring s = false /\ isMeasuring h = true) \/
  (e = ClickStop /\ isMeasuring s = true /\ isMeasuring h = false).
Proof.
  intros H. destruct e; callbacks; simpl in H.
  1-2, 5-7, 9: split_cases; simplify_eq; simpl; left; reflexivity.
  3: { destruct (sockets s !! i) as [k|]; [|discriminate].
       destruct (is_open (readyState k)); [|discriminate]. injection H as <-.
       pose proof (onmessage_frame (closure_isMeasuring k) data s) as F. simpl in F.
       left. apply F. }
  - destruct (clickable MeasureDistance s); [|discriminate].
    destruct (isMeasuring s) eqn:M; split_cases; simplify_eq; simpl; auto.
  - destruct (clickable StopMeasuring s); [|discriminate].
    destruct (isMeasuring s) eqn:M; split_cases; simplify_eq; simpl; auto.
Qed.

(** What a button in the document says about the flags. *)
Lemma clickable_sound s :
  PageInv s ->
  (clickable Calibrate s = true ->
   page s = [Calibrate] /\ isMeasuring s = false /\
   isCalibrating s = false /\ showCamera s = false) /\
  (clickable Capture s = true ->
   page s = [Capture] /\ isMeasuring s = false /\
   isCalibrating s = negb (isCalibrated s) /\ showCamera s = true) /\
  (clickable MeasureDistance s = true ->
   isMeasuring s = false /\ isCalibrating s = false /\ isCalibrated s = true) /\
  (clickable StopMeasuring s = true ->
   isMeasuring s = true /\ isCalibrating s = false /\ isCalibrated s = true).
Proof.
  unfold clickable, buttons.
  intros [(P & M & G & C) | [(P & M & G & C) | [(P & M & G & C) | (P & M & G & C)]]];
    rewrite P, M, G; try rewrite C; destruct (isCalibrated s) eqn:D; simpl;
    repeat split; intros; try discriminate; auto.
Qed.

(** A button that the state renders can be clicked. *)
Lemma clickable_calibrate s :
  isCalibrated s = false -> isCalibrating s = false -> clickable Calibrate s = true.
Proof.
  intros C G. unfold clickable, buttons. rewrite C, G. simpl.
  apply orb_true_r.
Qed.

Lemma clickable_capture s : isCalibrating s = true -> clickable Capture s = true.
Proof.
  intros G. unfold clickable, buttons. rewrite G.
  destruct (isCalibrated s); simpl; apply orb_true_r.
Qed.

Lemma clickable_measure s :
  isCalibrated s = true -> isMeasuring s = false ->
  clickable MeasureDistance s = true.
Proof.
  intros C M. unfold clickable, buttons. rewrite C, M.
  destruct (isCalibrating s); simpl; apply orb_true_r.
Qed.

Lemma clickable_stop s : isMeasuring s = true -> clickable StopMeasuring s = true.
Proof.
  intros M. unfold clickable, buttons. rewrite M.
  destruct (isCalibrated s), (isCalibrating s); simpl; apply orb_true_r.
Qed.

(** What a click that is handled says about the state it came in. *)
Lemma handle_click s e h :
  PageInv s -> handle s e = Some h ->
  match e with
  | ClickCalibrate =>
      page s = [Calibrate] /\ isMeasuring s = false /\
      isCalibrating s = false /\ showCamera s = false /\
      h = after_click (ws_is_open s) (startCalibration s)
  | ClickCapture shot =>
      page s = [Capture] /\ isMeasuring s = false /\
      isCalibrating s = negb (isCalibrated s) /\ showCamera s = true /\
      h = captureCalibration shot s
  | ClickMeasure =>
      isMeasuring s = false /\ isCalibrating s = false /\ isCalibrated s = true /\
      h = after_click (ws_is_open s) (startMeasuringDistance s)
  | ClickStop =>
      isMeasuring s = true /\ isCalibrating s = false /\ isCalibrated s = true /\
      h = render (stopMeasuringDistance s)
  | _ => True
  end.
Proof.
  intros PI H. destruct (clickable_sound s PI) as (S1 & S2 & S3 & S4).
  destruct e; try exact I; simpl in H.
  - destruct (clickable Calibrate s); [|discriminate]. injection H as <-.
    destruct (S1 eq_refl) as (? & ? & ? & ?). auto.
  - destruct (clickable Capture s); [|discriminate]. injection H as <-.
    destruct (S2 eq_refl) as (? & ? & ? & ?). auto.
  - destruct (clickable MeasureDistance s); [|discriminate]. injection H as <-.
    destruct (S3 eq_refl) as (? & ? & ?). auto.
  - destruct (clickable StopMeasuring s); [|discriminate]. injection H as <-.
    destruct (S4 eq_refl) as (? & ? & ?). auto.
Qed.

Lemma handle_flags s e h :
  FlagsInv s -> PageInv s -> handle s e = Some h -> FlagsInv h.
Proof.
  intros I PI H. destruct (clickable_sound s PI) as (S1 & S2 & S3 & S4).
  destruct e; simpl in H.
  1: destruct (clickable Calibrate s); [destruct (S1 eq_refl) as (_&?&?&?)|discriminate].
  2: destruct (clickable Capture s); [destruct (S2 eq_refl) as (_&?&?&?)|discriminate].
  3: destruct (clickable MeasureDistance s); [destruct (S3 eq_refl) as (?&?&?)|discriminate].
  4: destruct (clickable StopMeasuring s); [destruct (S4 eq_refl) as (?&?&?)|discriminate].
  all: clear S1 S2 S3 S4 PI; callbacks; simpl in H.
  8: { destruct (sockets s !! i) as [k|]; [|discriminate].
       destruct (is_open (readyState k)); [|discriminate]. injection H as <-.
       pose proof (onmessage_frame (closure_isMeasuring k) data s) as F. simpl in F.
       destruct F as (F1&_&F2&_&F3&_&_&F4&_&_&F5). destruct I as [A B C D E].
       destruct F5 as [[Fa Fb] | [Fa Fb]];
         constructor; rewrite ?F1, ?F2, ?F3, ?F4, ?Fa, ?Fb; intros; auto; congruence. }
  all: split_cases; simpl in *; simplify_eq;
    destruct I as [A B C D E]; constructor; simpl; intros; auto; try congruence.
  all: repeat match goal with
         | H : _ && _ = true |- _ => apply andb_true_iff in H; destruct H
         | H : negb _ = true |- _ => apply negb_true_iff in H
         end.
  all: try (intuition congruence).
  all: destruct (detectionInterval s) eqn:DI; simplify_eq; rewrite ?D; simpl;
    rewrite ?Pos.eqb_refl; auto; try congruence.
Qed.


Lemma handle_page s e h : PageInv s -> handle s e = Some h -> PageInv h.
Proof.
  intros PI H. destruct (clickable_sound s PI) as (S1 & S2 & S3 & S4).
  destruct e; simpl in H.
  - destruct (clickable Calibrate s); [|discriminate].
    destruct (S1 eq_refl) as (P & M & G & C). injection H as <-.
    unfold startCalibration, ws_send. destruct (ws_is_open s) eqn:O; [|exact PI].
    right. left. unfold after_click, render, buttons.
    destruct (ws s); simpl; rewrite M; auto.
  - destruct (clickable Capture s); [|discriminate].
    destruct (S2 eq_refl) as (P & M & G & C). injection H as <-.
    right. left. unfold after_click, captureCalibration, ws_send.
    destruct (webcamRef s), shot as [img|]; try (repeat split; assumption).
    destruct (truthy_string img && ws_is_open s); [|repeat split; assumption].
    destruct (ws s); repeat split; assumption.
  - destruct (clickable MeasureDistance s); [|discriminate].
    destruct (S3 eq_refl) as (M & G & C). injection H as <-.
    unfold startMeasuringDistance, ws_send, setInterval.
    destruct (ws_is_open s) eqn:O; [|exact PI].
    right. right. right. unfold after_click, render, buttons.
    destruct (ws s); simpl; rewrite G, C; auto.
  - destruct (clickable StopMeasuring s); [|discriminate].
    destruct (S4 eq_refl) as (M & G & C). injection H as <-.
    right. right. left.
    callbacks; split_cases; unfold buttons; simpl; rewrite ?G, ?C; auto.
  - destruct (sockets s !! i) as [k|]; [|discriminate].
    destruct (readyState k); try discriminate; injection H as <-;
      unfold onopen, set_readyState; destruct (sockets s !! i); exact PI.
  - destruct (sockets s !! i) as [k|]; [|discriminate].
    destruct (readyState k); try discriminate; injection H as <-;
      unfold onclose, set_readyState; destruct (sockets s !! i); exact PI.
  - destruct (sockets s !! i) as [k|]; [|discriminate]. injection H as <-. exact PI.
  - destruct (sockets s !! i) as [k|]; [|discriminate].
    destruct (is_open (readyState k)); [|discriminate]. injection H as <-.
    pose proof (onmessage_frame (closure_isMeasuring k) data s) as F. simpl in F.
    destruct F as (F1&_&F2&_&_&_&_&_&_&_&F5).
    unfold PageInv. rewrite onmessage_page, F1, F2.
    destruct PI as [(P & M & G & C) | [(P & M & G & C) | [(P & M & G & C) | (P & M & G & C)]]];
      destruct F5 as [[Fa Fb] | [Fa Fb]]; rewrite Fa, Fb; auto 10.
  - destruct (existsb (Pos.eqb t) (timers s)); [|discriminate]. injection H as <-.
    unfold sendFrame, ws_send.
    destruct (negb (webcamRef s) || negb (ws_is_open s)); [exact PI|].
    destruct shot as [img|]; [|exact PI].
    destruct (truthy_string img); [|exact PI].
    destruct (ws s); exact PI.
Qed.

Lemma step_sockets_inv s e s' : SocketsInv s -> step s e = Some s' -> SocketsInv s'.
Proof.
  intros (k & cur & W & L & Hk & Hc & Hold). unfold step.
  destruct (handle s e) as [h|] eqn:H; [|discriminate].
  intros [= <-]. apply commit_sockets_inv.
  destruct (handle_sockets _ _ _ H) as [Hw [Hs | (i & k0 & r & Hi & Hr & Hs)]].
  - exists k. rewrite Hw, Hs. repeat split; try assumption.
    intros _. exists cur. split; assumption.
  - exists k. rewrite Hw, Hs, length_insert. repeat split; try assumption.
    + intros j sock Hj Hl. apply list_lookup_insert_Some in Hj.
      destruct Hj as [(<- & <- & _) | (_ & Hj)].
      * simpl in Hl. eapply Hold; eauto.
      * eapply Hold; eauto.
    + intros _. destruct (decide (i = k)) as [->|Hne].
      * rewrite list_lookup_insert_eq by lia. eexists. split; [reflexivity|].
        simpl. congruence.
      * rewrite list_lookup_insert_ne by assumption. exists cur. split; assumption.
Qed.

Lemma step_flags_inv s e s' :
  FlagsInv s -> PageInv s -> step s e = Some s' -> FlagsInv s' /\ PageInv s'.
Proof.
  intros I PI. unfold step.
  destruct (handle s e) as [h|] eqn:H; [|discriminate].
  intros [= <-]. pose proof (handle_flags _ _ _ I PI H) as [A B C D E].
  pose proof (handle_page _ _ _ PI H) as PH.
  pose proof (commit_frame (isMeasuring s) h) as F. simpl in F.
  destruct F as (F1&_&_&_&_&F2&F3&_&F4&F5&_&F6&_&_).
  split.
  - constructor; rewrite ?F1, ?F2, ?F3, ?F4, ?F5, ?F6; assumption.
  - unfold PageInv. rewrite commit_page, F1, F2, F3, F4. exact PH.
Qed.

Lemma mount_inv : Inv mount /\ PageInv mount.
Proof.
  split; [split|].
  - constructor; simpl; auto; discriminate.
  - exists 0, {| readyState := CONNECTING; closure_isMeasuring := false |}.
    simpl. repeat split. intros [|j] sock Hj _; [reflexivity|discriminate].
  - left. repeat split.
Qed.

Lemma step_inv s e s' :
  Inv s /\ PageInv s -> step s e = Some s' -> Inv s' /\ PageInv s'.
Proof.
  intros [[F K] P] H.
  destruct (step_flags_inv _ _ _ F P H) as [F' P'].
  split; [split|]; [assumption | eapply step_sockets_inv; eauto | assumption].
Qed.

Lemma run_inv evs : forall s s',
  Inv s /\ PageInv s -> run evs s = Some s' -> Inv s' /\ PageInv s'.
Proof.
  induction evs as [|e evs IH]; simpl; intros s s' I H.
  - injection H as <-. assumption.
  - destruct (step s e) as [s1|] eqn:E; [|discriminate].
    eapply IH; [eapply step_inv|]; eauto.
Qed.

Lemma reachable_inv s : reachable s -> Inv s.
Proof. intros [evs H]. eapply run_inv; [apply mount_inv | exact H]. Qed.

Lemma reachable_page s : reachable s -> PageInv s.
Proof. intros [evs H]. eapply run_inv; [apply mount_inv | exact H]. Qed.

Lemma reachable_step s e s' : reachable s -> step s e = Some s' -> reachable s'.
Proof.
  intros [evs H] E. exists (evs ++ [e])%list.
  revert H. generalize mount. induction evs as [|a evs IH]; simpl; intros s0 H.
  - injection H as ->. rewrite E. reflexivity.
  - destruct (step s0 a); [apply IH; assumption | discriminate].
Qed.


(** ** Inbound messages *)

(** A message is handled by the closure of the socket it arrives on, and
    causes no effect to run. *)
Lemma step_message s i data s' :
  step s (WsMessage i data) = Some s' ->
  exists k,
    sockets s !! i = Some k /\ is_open (readyState k) = true /\
    s' = onmessage (closure_isMeasuring k) data s.
Proof.
  unfold step. simpl.
  destruct (sockets s !! i) as [k|]; [|discriminate].
  destruct (is_open (readyState k)) eqn:O; [|discriminate].
  intros [= <-]. exists k.
  split; [reflexivity|]. split; [first [assumption | reflexivity]|].
  apply commit_same.
  apply (onmessage_frame (closure_isMeasuring k) data s).
Qed.

(** In a reachable state the closure that handles a message saw the current
    [isMeasuring]: the socket is open, so it is the one the ref holds. *)
Lemma open_socket_is_current s i k :
  reachable s -> sockets s !! i = Some k -> is_open (readyState k) = true ->
  ws s = Some i /\ closure_isMeasuring k = isMeasuring s.
Proof.
  intros R Hi O. destruct (reachable_inv _ R) as [_ (c & cur & W & _ & Hc & Hm & Hold)].
  assert (i = c) as ->.
  { eapply Hold; eauto. destruct (readyState k); simpl in *; congruence. }
  split; [assumption|]. congruence.
Qed.

Lemma includes_empty hay : includes hay EmptyString = true.
Proof. destruct hay; reflexivity. Qed.

Lemma prefix_refl e : String.prefix e e = true.
Proof.
  induction e as [|c e IH]; simpl; [reflexivity|].
  destruct (ascii_dec c c); [assumption | congruence].
Qed.

Lemma includes_append a e : includes (a +:+ e) e = true.
Proof.
  induction a as [|c a IH]; simpl.
  - destruct e as [|c e]; simpl; [reflexivity|].
    destruct (ascii_dec c c); [|congruence]. rewrite prefix_refl. reflexivity.
  - rewrite IH. apply orb_true_r.
Qed.

Lemma is_calibrating s : phase s = Calibrating ->
  isMeasuring s = false /\ isCalibrated s = false /\ isCalibrating s = true.
Proof.
  unfold phase. destruct (isMeasuring s), (isCalibrated s), (isCalibrating s);
    intros; try discriminate; auto.
Qed.

Lemma is_measuring s : phase s = Measuring <-> isMeasuring s = true.
Proof.
  unfold phase. destruct (isMeasuring s), (isCalibrated s), (isCalibrating s);
    split; intros; try discriminate; auto.
Qed.

#[local] Arguments includes : simpl never.
#[local] Arguments toLowerCase : simpl never.
#[local] Arguments truthy_string : simpl never.
#[local] Arguments truthy_number : simpl never.
#[local] Arguments mentions_calibration : simpl never.
#[local] Arguments distance_text : simpl never.

(** The state variables after [onmessage], one by one. *)
Lemma onmessage_fields c data s :
  let s' := onmessage c data s in
  let ok := truthy_field id (success data) in
  processedImage s' =
    (if ok && truthy_field truthy_string (processed_image data)
     then processed_image data else processedImage s) /\
  focalLength s' =
    (match focal_length data with
     | Some f => if ok && truthy_number f then f else focalLength s
     | None => focalLength s
     end) /\
  isCalibrating s' =
    (if ok && mentions_calibration data then false else isCalibrating s) /\
  isCalibrated s' =
    (if ok && mentions_calibration data then true else isCalibrated s) /\
  currentDistance s' =
    (match faces data with
     | Some (f0 :: _) => if ok && c then distance_text f0 else currentDistance s
     | _ => currentDistance s
     end) /\
  statusMessage s' =
    (match error data with
     | Some e =>
         if truthy_string e then "Error: " +:+ e
         else match message data with
              | Some m =>
                  if truthy_string m then m
                  else if ok && mentions_calibration data then confirmation_text
                       else statusMessage s
              | None =>
                  if ok && mentions_calibration data then confirmation_text
                  else statusMessage s
              end
     | None =>
         match message data with
         | Some m =>
             if truthy_string m then m
             else if ok && mentions_calibration data then confirmation_text
                  else statusMessage s
         | None =>
             if ok && mentions_calibration data then confirmation_text
             else statusMessage s
         end
     end).
Proof.
  unfold onmessage, truthy_field.
  destruct (mentions_calibration data).
  all: destruct (success data) as [[|]|], (processed_image data) as [pi|],
    (focal_length data) as [fl|], (faces data) as [[|f0 fa]|],
    (message data) as [me|], (error data) as [er|]; cbn [id andb];
    repeat match goal with |- context [truthy_string ?x] => destruct (truthy_string x) end;
    repeat match goal with |- context [truthy_number ?x] => destruct (truthy_number x) end;
    destruct c; cbn; repeat split; reflexivity.
Qed.

Ltac by_fields H data s :=
  let k := fresh "k" in
  let Hk := fresh "Hk" in
  let Ho := fresh "Ho" in
  destruct (step_message _ _ _ _ H) as (k & Hk & Ho & ->);
  let F := fresh "F" in
  pose proof (onmessage_fields (closure_isMeasuring k) data s) as F;
  cbv zeta in F;
  destruct F as (Fimage & Ffocal & Fcalibrating & Fcalibrated & Fdistance & Fstatus).

(** C10.  A message whose [success] field is absent or false leaves the
    processed image, the focal length, the calibrating, calibrated and
    measuring flags and the displayed distance as they were, whatever else
    it carries: the state after it is the state before it with at most the
    status message replaced, and the status message is replaced only by a
    non-empty [message] or [error]. *)
Theorem unsuccessful_message_changes_status_only s i data s' :
  step s (WsMessage i data) = Some s' ->
  success data = None \/ success data = Some false ->
  processedImage s' = processedImage s /\
  focalLength s' = focalLength s /\
  isCalibrating s' = isCalibrating s /\
  isCalibrated s' = isCalibrated s /\
  isMeasuring s' = isMeasuring s /\
  currentDistance s' = currentDistance s /\
  s' = setStatusMessage (statusMessage s') s /\
  (truthy_field truthy_string (message data) = false ->
   truthy_field truthy_string (error data) = false ->
   statusMessage s' = statusMessage s).
Proof.
  intros H Hs.
  assert (Hok : truthy_field id (success data) = false)
    by (destruct Hs as [-> | ->]; reflexivity).
  destruct (step_message _ _ _ _ H) as (k & _ & _ & ->).
  pose proof (onmessage_fields (closure_isMeasuring k) data s) as F.
  pose proof (onmessage_frame (closure_isMeasuring k) data s) as G.
  cbv zeta in F, G. rewrite Hok in F. cbn [andb] in F.
  destruct F as (F1 & F2 & F3 & F4 & F5 & F6).
  destruct G as (_&_&G&_).
  repeat split; try assumption.
  - rewrite F2. destruct (focal_length data); reflexivity.
  - rewrite F5. destruct (faces data) as [[|]|]; reflexivity.
  - clear -Hok. unfold onmessage. rewrite Hok.
    destruct s, (message data) as [m|], (error data) as [e|]; cbn;
      repeat match goal with |- context [truthy_string ?x] => destruct (truthy_string x) end;
      reflexivity.
  - unfold truthy_field. intros Hm He. rewrite F6.
    destruct (message data), (error data); rewrite ?Hm, ?He; reflexivity.
Qed.

(** C5.  A field that is absent from a message leaves its state variable as
    it was: [focal_length] the focal length, [processed_image] the processed
    image, [faces] the displayed distance, and the two texts [message] and
    [error] the status message. *)
Theorem absent_field_keeps_value s i data s' :
  step s (WsMessage i data) = Some s' ->
  (focal_length data = None -> focalLength s' = focalLength s) /\
  (processed_image data = None -> processedImage s' = processedImage s) /\
  (faces data = None -> currentDistance s' = currentDistance s) /\
  (message data = None -> error data = None -> statusMessage s' = statusMessage s).
Proof.
  intros H. by_fields H data s. repeat split.
  - intros E. rewrite Ffocal, E. reflexivity.
  - intros E. rewrite Fimage, E. cbn. rewrite andb_false_r. reflexivity.
  - intros E. rewrite Fdistance, E. reflexivity.
  - intros E1 E2. rewrite Fstatus, E1, E2. unfold mentions_calibration. rewrite E1.
    rewrite andb_false_r. reflexivity.
Qed.

Lemma marker_text_is_truthy m :
  includes (toLowerCase m) calibration_marker = true -> truthy_string m = true.
Proof. destruct m; [vm_compute; discriminate | reflexivity]. Qed.

(** C6, as the code has it.  While calibrating, a message with a true
    [success] flag whose status text contains the marker "calibration
    complete" in any letter case moves the session to Calibrated and records
    the focal length the message reports (a missing or zero one leaves the
    stored value); the status message then is the error text when the
    message has a non-empty [error], and otherwise a text that contains the
    marker. *)
Theorem calibration_completes_on_success s i data s' m :
  phase s = Calibrating ->
  step s (WsMessage i data) = Some s' ->
  success data = Some true ->
  message data = Some m ->
  includes (toLowerCase m) calibration_marker = true ->
  phase s' = Calibrated /\
  isCalibrating s' = false /\
  focalLength s' =
    match focal_length data with
    | Some f => if truthy_number f then f else focalLength s
    | None => focalLength s
    end /\
  match error data with
  | Some e =>
      if truthy_string e then statusMessage s' = "Error: " +:+ e
      else includes (toLowerCase (statusMessage s')) calibration_marker = true
  | None => includes (toLowerCase (statusMessage s')) calibration_marker = true
  end.
Proof.
  intros P H Hs Hm Hi. destruct (is_calibrating _ P) as (M & C & G).
  by_fields H data s.
  pose proof (onmessage_frame (closure_isMeasuring k) data s) as (_&_&FM&_).
  assert (Hc : mentions_calibration data = true)
    by (unfold mentions_calibration; rewrite Hm; exact Hi).
  pose proof (marker_text_is_truthy _ Hi) as T.
  rewrite Hs, Hc in *. cbn [truthy_field id andb] in *.
  repeat split.
  - unfold phase. rewrite FM, M, Fcalibrated. reflexivity.
  - assumption.
  - assumption.
  - rewrite Fstatus, Hm, T.
    destruct (error data) as [e|]; [destruct (truthy_string e)|]; auto.
Qed.

(** C7, as the code has it.  While measuring, a message with a true
    [success] flag and at least one detection sets the display from the
    first detection: its distance followed by "m" when that is positive,
    and "Calculating..." when it is zero, negative or missing.  Any other
    message leaves the display as it was. *)
Theorem distance_display_follows_first_detection s i data s' :
  reachable s ->
  phase s = Measuring ->
  step s (WsMessage i data) = Some s' ->
  currentDistance s' =
    match success data, faces data with
    | Some true, Some (f :: _) =>
        match distance f with
        | Some d =>
            if PrimFloat.ltb 0%float d then number_to_string d +:+ "m"
            else "Calculating..."
        | None => "Calculating..."
        end
    | _, _ => currentDistance s
    end.
Proof.
  intros R P H. apply is_measuring in P.
  by_fields H data s.
  destruct (open_socket_is_current _ _ _ R Hk Ho) as [_ Hc].
  rewrite Fdistance, Hc, P.
  destruct (success data) as [[|]|], (faces data) as [[|f fs]|]; reflexivity.
Qed.

(** C8, as the code has it.  The text of an [error] field is in the status
    message after the message is handled, as "Error: " followed by the text
    when the text is not empty.  The measuring flag is untouched, and the
    phase is the one before unless the same message also has a true
    [success] flag and a status text with the calibration marker, which
    completes the calibration. *)
Theorem error_text_is_surfaced s i data s' e :
  step s (WsMessage i data) = Some s' ->
  error data = Some e ->
  includes (statusMessage s') e = true /\
  (e <> EmptyString -> statusMessage s' = "Error: " +:+ e) /\
  isMeasuring s' = isMeasuring s /\
  (truthy_field id (success data) && mentions_calibration data = false ->
   phase s' = phase s) /\
  (truthy_field id (success data) && mentions_calibration data = true ->
   isCalibrated s' = true /\ isCalibrating s' = false).
Proof.
  intros H He. by_fields H data s.
  pose proof (onmessage_frame (closure_isMeasuring k) data s) as (_&_&FM&_).
  assert (St : e <> EmptyString -> statusMessage (onmessage (closure_isMeasuring k) data s)
                          = "Error: " +:+ e).
  { intros Ne. rewrite Fstatus, He.
    destruct e; [congruence | reflexivity]. }
  repeat split.
  - destruct e as [|a e]; [apply includes_empty|].
    rewrite St by discriminate. apply includes_append.
  - exact St.
  - exact FM.
  - intros E. unfold phase. rewrite FM, Fcalibrated, Fcalibrating, E. reflexivity.
  - rewrite Fcalibrated. match goal with E : _ && _ = true |- _ => rewrite E end.
    reflexivity.
  - rewrite Fcalibrating. match goal with E : _ && _ = true |- _ => rewrite E end.
    reflexivity.
Qed.

(** ** What goes out on the wire *)

(** Every send, classified: a callback sends at most one message, on the
    socket the ref holds, which is open; and each kind of message has one
    callback that sends it. *)
Lemma handle_sent s e h :
  handle s e = Some h ->
  sent h = sent s \/
  exists i m,
    ws s = Some i /\ ws_is_open s = true /\ sent h = (sent s ++ [(i, m)])%list /\
    ((e = ClickCalibrate /\ m = Command "start_calibration") \/
     (exists img, e = ClickCapture (Some img) /\ m = CommandImage "capture" img /\
                  truthy_string img = true /\ showCamera s = true) \/
     (e = ClickMeasure /\ m = Command "start_distance") \/
     (e = ClickStop /\ m = Command "stop_all") \/
     (exists t img, e = IntervalTick t (Some img) /\ m = Frame img /\
                    truthy_string img = true /\ showCamera s = true)).
Proof.
  intros H. destruct e; callbacks; simpl in H.
  8: { destruct (sockets s !! i) as [k|]; [|discriminate].
       destruct (is_open (readyState k)); [|discriminate]. injection H as <-.
       left. apply (onmessage_frame (closure_isMeasuring k) data s). }
  all: split_cases; simpl in *; simplify_eq; simpl; try (left; reflexivity).
  all: repeat match goal with
         | H : _ && _ = true |- _ => apply andb_true_iff in H; destruct H
         | H : _ || _ = false |- _ => apply orb_false_iff in H; destruct H
         | H : negb _ = false |- _ => apply negb_false_iff in H
         end; try discriminate.
  all: right; eexists _, _; (split; [reflexivity|]);
    (split; [first [reflexivity | assumption]|]); (split; [reflexivity|]).
  all: eauto 12.
Qed.

Lemma step_handle s e s' :
  step s e = Some s' ->
  exists h, handle s e = Some h /\ s' = commit (isMeasuring s) h.
Proof.
  unfold step. destruct (handle s e) as [h|]; [|discriminate].
  intros [= <-]. exists h. split; reflexivity.
Qed.

Lemma sent_by_app s s' d : sent s' = (sent s ++ d)%list -> sent_by s s' = d.
Proof. intros E. unfold sent_by. rewrite E. apply drop_app_length. Qed.

(** A turn of the event loop sends what its callback sends. *)
Lemma step_sent s e s' :
  step s e = Some s' ->
  (sent s' = sent s /\ sent_by s s' = []) \/
  exists i m,
    ws s = Some i /\ ws_is_open s = true /\
    sent s' = (sent s ++ [(i, m)])%list /\ sent_by s s' = [(i, m)] /\
    ((e = ClickCalibrate /\ m = Command "start_calibration") \/
     (exists img, e = ClickCapture (Some img) /\ m = CommandImage "capture" img /\
                  truthy_string img = true /\ showCamera s = true) \/
     (e = ClickMeasure /\ m = Command "start_distance") \/
     (e = ClickStop /\ m = Command "stop_all") \/
     (exists t img, e = IntervalTick t (Some img) /\ m = Frame img /\
                    truthy_string img = true /\ showCamera s = true)).
Proof.
  intros H. destruct (step_handle _ _ _ H) as (h & Hh & ->).
  pose proof (commit_frame (isMeasuring s) h) as F. cbv zeta in F.
  destruct F as (_&_&_&_&_&_&_&_&_&_&_&_&_&F).
  destruct (handle_sent _ _ _ Hh) as [E | (i & m & W & O & E & K)].
  - left. rewrite F, E. split; [reflexivity|].
    apply sent_by_app. rewrite F, E, app_nil_r. reflexivity.
  - right. exists i, m. repeat split; try assumption.
    + congruence.
    + apply sent_by_app. congruence.
Qed.

(** An interval fires only while measuring. *)
Lemma tick_while_measuring s t shot s' :
  reachable s -> step s (IntervalTick t shot) = Some s' -> isMeasuring s = true.
Proof.
  intros R H. destruct (reachable_inv _ R) as [[_ _ _ D E] _].
  unfold step in H. simpl in H.
  destruct (existsb (Pos.eqb t) (timers s)) eqn:X; [|discriminate].
  rewrite E. destruct (detectionInterval s); [reflexivity|].
  rewrite D in X. discriminate.
Qed.

(** C4.  Bare frames go out only from the interval, only while measuring
    and only on the open socket: whatever the event, a frame among the
    messages it sends means the phase is Measuring, the channel is open and
    the event is a tick of the interval with that snapshot.  The interval
    fires in no other phase, and a tick that finds no camera element, the
    channel not open or no snapshot leaves the whole state as it was:
    nothing is sent and nothing is kept for later. *)
Theorem frames_only_while_measuring s e s' :
  reachable s ->
  step s e = Some s' ->
  sent s' = (sent s ++ sent_by s s')%list /\
  (forall i img,
     In (i, Frame img) (sent_by s s') ->
     phase s = Measuring /\ ws_is_open s = true /\ ws s = Some i /\
     sent_by s s' = [(i, Frame img)] /\
     exists t, e = IntervalTick t (Some img)) /\
  (forall t shot,
     e = IntervalTick t shot ->
     phase s = Measuring /\
     (webcamRef s = false \/ ws_is_open s = false \/
      truthy_field truthy_string shot = false -> s' = s)).
Proof.
  intros R H. split; [|split].
  - destruct (step_sent _ _ _ H) as [[E ->] | (i & m & _ & _ & E & -> & _)].
    + rewrite app_nil_r. assumption.
    + assumption.
  - intros i img I.
    destruct (step_sent _ _ _ H) as [[_ E] | (j & m & W & O & _ & E & K)];
      rewrite E in I; simpl in I; [contradiction|].
    destruct I as [I|[]]. injection I as -> ->.
    destruct K as [[_ ?] | [(? & _ & ? & _) | [[_ ?] | [[_ ?] | (t & im & -> & Em & _)]]]];
      try discriminate.
    injection Em as <-.
    repeat split; try assumption.
    + apply is_measuring. eapply tick_while_measuring; eauto.
    + eauto.
  - intros t shot ->. split.
    + apply is_measuring. eapply tick_while_measuring; eauto.
    + intros Skip. destruct (step_handle _ _ _ H) as (h & Hh & ->).
      simpl in Hh. destruct (existsb (Pos.eqb t) (timers s)); [|discriminate].
      injection Hh as <-.
      assert (sendFrame shot s = s) as ->.
      { unfold sendFrame. destruct Skip as [-> | [-> | Sk]].
        - reflexivity.
        - rewrite orb_true_r. reflexivity.
        - destruct (negb (webcamRef s) || negb (ws_is_open s)); [reflexivity|].
          destruct shot as [img|]; [|reflexivity].
          simpl in Sk. rewrite Sk. reflexivity. }
      apply commit_same. reflexivity.
Qed.



(** What [stopMeasuringDistance] writes. *)
Lemma stop_fields s :
  let s' := stopMeasuringDistance s in
  isMeasuring s' = false /\ currentDistance s' = "0m" /\
  processedImage s' = None /\ statusMessage s' = "Measurement stopped" /\
  isCalibrated s' = isCalibrated s /\ isCalibrating s' = isCalibrating s /\
  detectionInterval s' = None /\
  timers s' =
    match detectionInterval s with
    | Some t => List.filter (fun u => negb (Pos.eqb u t)) (timers s)
    | None => timers s
    end /\
  sent s' =
    (sent s ++ if ws_is_open s
               then match ws s with Some k => [(k, Command "stop_all")] | None => [] end
               else [])%list.
Proof.
  unfold stopMeasuringDistance, ws_send, clearInterval, ws_is_open.
  destruct s as [? ? ? ? ? ? ? ? ? w di ? so ? ? ? ?]; cbn.
  destruct w as [k|]; cbn;
    [destruct (so !! k) as [c|]; cbn; [destruct (is_open (readyState c)); cbn|]|];
    destruct di; cbn; rewrite ?app_nil_r; repeat split; reflexivity.
Qed.

(** C3, as the code has it.  While measuring, the stop button can be
    pressed; the press sends [{command: "stop_all"}] when the channel is open
    and nothing when it is not, cancels the interval, sets the displayed
    distance back to "0m", clears the processed image and leaves the session
    Calibrated.  The state it starts from is any reachable measuring state,
    with or without a result received. *)
Theorem stop_clears_display s :
  reachable s ->
  phase s = Measuring ->
  exists s' k,
    step s ClickStop = Some s' /\ ws s = Some k /\
    sent s' = (sent s ++ sent_by s s')%list /\
    sent_by s s' = (if ws_is_open s then [(k, Command "stop_all")] else []) /\
    timers s' = [] /\ detectionInterval s' = None /\
    currentDistance s' = "0m" /\ processedImage s' = None /\
    phase s' = Calibrated.
Proof.
  intros R P. apply is_measuring in P.
  destruct (reachable_inv _ R) as [[A _ _ D E] (k & cur & W & _)].
  exists (commit (isMeasuring s) (render (stopMeasuringDistance s))), k.
  pose proof (commit_frame (isMeasuring s) (render (stopMeasuringDistance s))) as F.
  pose proof (stop_fields s) as G. cbv zeta in F, G.
  remember (stopMeasuringDistance s) as x eqn:X. simpl in F.
  destruct F as (_&F1&_&F2&_&_&F3&_&F4&F5&_&F6&_&F7).
  destruct G as (G1&G2&G3&_&G4&_&G5&G6&G7).
  assert (S : sent (commit (isMeasuring s) (render x)) =
              (sent s ++ if ws_is_open s then [(k, Command "stop_all")] else [])%list).
  { rewrite F7, G7, W. reflexivity. }
  split; [unfold step; simpl; rewrite (clickable_stop _ P), X; reflexivity|].
  split; [assumption|].
  rewrite (sent_by_app _ _ _ S).
  repeat split; try congruence.
  - rewrite F6, G6. destruct (detectionInterval s) as [t|]; [|congruence].
    rewrite D. simpl. rewrite Pos.eqb_refl. reflexivity.
  - unfold phase. rewrite F4, G1, F3, G4, (A P). reflexivity.
Qed.

(** ** The lifetime of the connection *)

Lemma step_sockets_length s e s' :
  step s e = Some s' ->
  length (sockets s') =
  length (sockets s) + (if Bool.eqb (isMeasuring s) (isMeasuring s') then 0 else 1).
Proof.
  intros H. destruct (step_handle _ _ _ H) as (h & Hh & ->).
  rewrite commit_sockets_length.
  pose proof (commit_frame (isMeasuring s) h) as F. cbv zeta in F.
  destruct F as (_&_&_&_&_&_&_&_&F&_). rewrite F.
  destruct (handle_sockets _ _ _ Hh) as [_ [-> | (i & k & r & _ & _ & ->)]];
    rewrite ?length_insert; reflexivity.
Qed.

(** C1, as the code has it.  The first render opens one connection.  After
    that a turn of the event loop opens a connection exactly when it changes
    [isMeasuring], which only the two measuring buttons do: no open, close,
    error or message event and no tick of the interval opens one, so a
    dropped connection is not reopened by itself.  The connection the ref
    held before is closed first: at any time the only socket that can be
    connecting or open is the one the ref holds. *)
Theorem connection_reopens_only_on_measuring_change s e s' :
  reachable s ->
  step s e = Some s' ->
  length (sockets mount) = 1 /\
  length (sockets s') =
    length (sockets s) + (if Bool.eqb (isMeasuring s) (isMeasuring s') then 0 else 1) /\
  (isMeasuring s' <> isMeasuring s -> e = ClickMeasure \/ e = ClickStop) /\
  (forall j sock,
     sockets s' !! j = Some sock -> is_live (readyState sock) = true ->
     ws s' = Some j).
Proof.
  intros R H. split; [reflexivity|]. split; [exact (step_sockets_length _ _ _ H)|].
  split.
  - intros Ne. destruct (step_handle _ _ _ H) as (h & Hh & ->).
    pose proof (commit_frame (isMeasuring s) h) as F. cbv zeta in F.
    destruct F as (_&_&_&_&_&_&_&_&F&_). rewrite F in Ne.
    destruct (handle_isMeasuring _ _ _ Hh) as [E | [(-> & _) | (-> & _)]]; auto.
    contradiction.
  - intros j sock Hj L.
    destruct (reachable_inv _ (reachable_step _ _ _ R H))
      as [_ (k & cur & W & _ & _ & _ & Hold)].
    rewrite W. f_equal. symmetry. eapply Hold; eauto.
Qed.

(** ** After the measurement is stopped *)

(** Apart from [onmessage] and the stop button, no callback writes the
    displayed distance or the processed image. *)
Lemma handle_display s e h :
  handle s e = Some h ->
  match e with
  | WsMessage _ _ | ClickStop => True
  | _ => currentDistance h = currentDistance s /\ processedImage h = processedImage s
  end.
Proof.
  intros H. destruct e; try exact I; callbacks; simpl in H;
    split_cases; simpl in *; simplify_eq; simpl; split; reflexivity.
Qed.

Lemma step_while_not_measuring s e s' :
  reachable s -> isMeasuring s = false -> is_click_measure e = false ->
  step s e = Some s' ->
  isMeasuring s' = false /\ currentDistance s' = currentDistance s /\
  (carries_image e = false -> processedImage s' = processedImage s).
Proof.
  intros R M NC H. destruct (step_handle _ _ _ H) as (h & Hh & ->).
  pose proof (commit_frame (isMeasuring s) h) as F. cbv zeta in F.
  destruct F as (_&F1&_&F2&_&_&_&_&F3&_). rewrite F1, F2, F3.
  destruct e; try discriminate NC.
  3: { destruct (handle_click _ _ _ (reachable_page _ R) Hh) as (M' & _).
       congruence. }
  6: { simpl in Hh. destruct (sockets s !! i) as [k|] eqn:Hk; [|discriminate].
       destruct (is_open (readyState k)) eqn:O; [|discriminate].
       injection Hh as <-.
       destruct (open_socket_is_current _ _ _ R Hk O) as [_ Hc].
       pose proof (onmessage_fields (closure_isMeasuring k) data s) as G.
       pose proof (onmessage_frame (closure_isMeasuring k) data s) as (_&_&GM&_).
       cbv zeta in G. destruct G as (G1&_&_&_&G2&_).
       rewrite GM, G1, G2, Hc, M, andb_false_r.
       split; [reflexivity|]. split.
       - destruct (faces data) as [[|]|]; reflexivity.
       - simpl. intros ->. reflexivity. }
  all: pose proof (handle_display _ _ _ Hh) as [D1 D2];
    destruct (handle_isMeasuring _ _ _ Hh) as [E | [(? & _) | (? & _)]];
    try discriminate; rewrite D1, D2, E; auto.
Qed.

Lemma run_while_not_measuring evs : forall s s',
  reachable s -> isMeasuring s = false ->
  existsb is_click_measure evs = false ->
  run evs s = Some s' ->
  reachable s' /\ isMeasuring s' = false /\
  currentDistance s' = currentDistance s /\
  length (sockets s) <= length (sockets s') /\
  (existsb carries_image evs = false -> processedImage s' = processedImage s).
Proof.
  induction evs as [|e evs IH]; simpl; intros s s' R M NC H.
  - injection H as <-. repeat split; auto.
  - apply orb_false_iff in NC. destruct NC as [NC1 NC2].
    destruct (step s e) as [s1|] eqn:E; [|discriminate].
    destruct (step_while_not_measuring _ _ _ R M NC1 E) as (M1 & D1 & P1).
    pose proof (step_sockets_length _ _ _ E) as L1.
    destruct (IH _ _ (reachable_step _ _ _ R E) M1 NC2 H) as (R' & M' & D' & L' & P').
    repeat split; try assumption; try congruence; try lia.
    intros C. apply orb_false_iff in C. destruct C as [C1 C2].
    rewrite (P' C2). apply P1. assumption.
Qed.

(** C2, as the code has it.  After the stop button, for as long as the
    measurement is not started again: the displayed distance stays "0m"
    whatever arrives; the sockets that existed when the button was pressed,
    the one the frames went out on among them, deliver no message any more,
    so a reply to a frame still in flight is never handled; and the
    processed image stays cleared unless a message on the new connection has
    a true [success] flag and a non-empty [processed_image]. *)
Theorem display_after_stop s s1 evs s2 :
  reachable s ->
  step s ClickStop = Some s1 ->
  existsb is_click_measure evs = false ->
  run evs s1 = Some s2 ->
  isMeasuring s2 = false /\
  currentDistance s2 = "0m" /\
  (forall j data, j < length (sockets s) -> step s2 (WsMessage j data) = None) /\
  (existsb carries_image evs = false -> processedImage s2 = None).
Proof.
  intros R H NC Hr.
  assert (M : isMeasuring s = true).
  { destruct (step_handle _ _ _ H) as (h & Hh & _).
    apply (handle_click _ _ _ (reachable_page _ R) Hh). }
  assert (S1 : isMeasuring s1 = false /\ currentDistance s1 = "0m" /\
               processedImage s1 = None).
  { destruct (step_handle _ _ _ H) as (h & Hh & ->).
    destruct (handle_click _ _ _ (reachable_page _ R) Hh) as (_ & _ & _ & ->).
    pose proof (commit_frame (isMeasuring s) (render (stopMeasuringDistance s))) as F.
    pose proof (stop_fields s) as G. cbv zeta in F, G.
    remember (stopMeasuringDistance s) as x eqn:X. simpl in F.
    destruct F as (_&F1&_&F2&_&_&_&_&F3&_). destruct G as (G1&G2&G3&_).
    rewrite F1, F2, F3. auto. }
  destruct S1 as (M1 & D1 & P1).
  pose proof (step_sockets_length _ _ _ H) as L1. rewrite M, M1 in L1. simpl in L1.
  destruct (run_while_not_measuring _ _ _ (reachable_step _ _ _ R H) M1 NC Hr)
    as (R2 & M2 & D2 & L2 & P2).
  repeat split; try congruence.
  - intros j data Hj. unfold step. simpl.
    destruct (sockets s2 !! j) as [k|] eqn:Hk; [|reflexivity].
    destruct (is_open (readyState k)) eqn:O; [|reflexivity].
    exfalso. destruct (open_socket_is_current _ _ _ R2 Hk O) as [W _].
    destruct (reachable_inv _ R2) as [_ (c & cur & W' & L & _)].
    rewrite W in W'. injection W' as ->. lia.
  - intros C. rewrite (P2 C). assumption.
Qed.


(** ** Further properties of the session *)

Lemma run_snoc evs e : forall s s',
  run (evs ++ [e])%list s = Some s' <->
  exists s0, run evs s = Some s0 /\ step s0 e = Some s'.
Proof.
  induction evs as [|a evs IH]; simpl; intros s s'.
  - split.
    + intros H. exists s. split; [reflexivity|].
      destruct (step s e); [assumption | discriminate].
    + intros (s0 & [= <-] & H). rewrite H. reflexivity.
  - destruct (step s a) as [s1|]; [apply IH|].
    split; [discriminate | intros (s0 & H & _); discriminate].
Qed.

(** Induction over the states of a mounted session. *)
Lemma reachable_induction (P : State -> Prop) :
  P mount ->
  (forall s e s', reachable s -> P s -> step s e = Some s' -> P s') ->
  forall s, reachable s -> P s.
Proof.
  intros H0 HS s [evs H]. revert s H.
  induction evs as [|e evs IH] using rev_ind; intros s H.
  - injection H as <-. assumption.
  - apply run_snoc in H. destruct H as (s0 & H1 & H2).
    apply (HS s0 e s); [exists evs; assumption | apply IH; assumption | assumption].
Qed.

Lemma run_reachable evs : forall s s',
  reachable s -> run evs s = Some s' -> reachable s'.
Proof.
  induction evs as [|e evs IH]; simpl; intros s s' R H.
  - injection H as <-. assumption.
  - destruct (step s e) as [s1|] eqn:E; [|discriminate].
    eapply IH; [eapply reachable_step; eauto | eassumption].
Qed.

(** What a callback other than [onmessage] does to the three flags and to
    the camera. *)
Lemma handle_phase_flags s e h :
  handle s e = Some h ->
  match e with
  | ClickCalibrate =>
      h = s \/
      (ws_is_open s = true /\ isCalibrating h = true /\ isCalibrated h = false /\
       isMeasuring h = isMeasuring s /\ showCamera h = true)
  | ClickMeasure =>
      h = s \/
      (ws_is_open s = true /\ isCalibrating h = isCalibrating s /\
       isCalibrated h = isCalibrated s /\ isMeasuring h = true /\
       showCamera h = showCamera s)
  | ClickStop =>
      isCalibrating h = isCalibrating s /\ isCalibrated h = isCalibrated s /\
      isMeasuring h = false /\ showCamera h = showCamera s
  | WsMessage _ _ => True
  | _ =>
      isCalibrating h = isCalibrating s /\ isCalibrated h = isCalibrated s /\
      isMeasuring h = isMeasuring s /\ showCamera h = showCamera s
  end.
Proof.
  intros H. destruct e; try exact I; callbacks; simpl in H;
    split_cases; simpl in *; simplify_eq; simpl; auto 10.
Qed.

(** X1.  The transitions of the workflow.  A turn of the event loop leaves
    the phase as it is or makes one of six moves: Idle to Calibrating by
    the Calibrate button, Idle or Calibrating to Calibrated by a successful
    message with the calibration marker, Calibrated to Measuring by the
    Measure button, Measuring to Calibrated by the Stop button, and
    Calibrated back to Calibrating by the Calibrate button of a document
    that still shows it, the completion message having been handled while
    Idle and its render not being committed yet.  No move leads back to
    Idle. *)
Theorem phase_transitions s e s' :
  reachable s ->
  step s e = Some s' ->
  phase s' = phase s \/
  (phase s = Idle /\ phase s' = Calibrating /\ e = ClickCalibrate) \/
  ((phase s = Idle \/ phase s = Calibrating) /\ phase s' = Calibrated /\
   exists i data, e = WsMessage i data /\ success data = Some true /\
                  mentions_calibration data = true) \/
  (phase s = Calibrated /\ phase s' = Measuring /\ e = ClickMeasure) \/
  (phase s = Measuring /\ phase s' = Calibrated /\ e = ClickStop) \/
  (phase s = Calibrated /\ phase s' = Calibrating /\ e = ClickCalibrate /\
   page s = [Calibrate] /\ ws_is_open s = true).
Proof.
  intros R H. pose proof (reachable_page _ R) as PI.
  destruct (step_handle _ _ _ H) as (h & Hh & ->).
  pose proof (commit_frame (isMeasuring s) h) as F. cbv zeta in F.
  destruct F as (_&_&_&_&_&F1&F2&_&F3&_).
  assert (P : phase (commit (isMeasuring s) h) = phase h)
    by (unfold phase; rewrite F1, F2, F3; reflexivity).
  rewrite P. clear P F1 F2 F3.
  pose proof (handle_phase_flags _ _ _ Hh) as K.
  pose proof (handle_click _ _ _ PI Hh) as HC.
  destruct e.
  8: { simpl in Hh. destruct (sockets s !! i) as [k|]; [|discriminate].
       destruct (is_open (readyState k)); [|discriminate]. injection Hh as <-.
       pose proof (onmessage_fields (closure_isMeasuring k) data s) as G.
       pose proof (onmessage_frame (closure_isMeasuring k) data s) as (_&_&GM&_).
       cbv zeta in G. destruct G as (_&_&G1&G2&_). unfold phase.
       rewrite GM, G1, G2.
       destruct (truthy_field id (success data) && mentions_calibration data) eqn:T;
         [|left; reflexivity].
       apply andb_true_iff in T. destruct T as [T1 T2].
       assert (success data = Some true)
         by (destruct (success data) as [[|]|]; simpl in T1; congruence).
       destruct (isMeasuring s); [left; reflexivity|].
       destruct (isCalibrated s); [left; reflexivity|].
       right. right. left.
       split; [destruct (isCalibrating s); auto|]. split; [reflexivity|]. eauto. }
  - destruct HC as (Pg & M & G & _).
    destruct K as [-> | (O & K1 & K2 & K3 & _)]; [left; reflexivity|].
    unfold phase. rewrite K1, K2, K3, M, G.
    destruct (isCalibrated s); auto 10.
  - destruct K as (K1 & K2 & K3 & _). left. unfold phase. rewrite K1, K2, K3. reflexivity.
  - destruct HC as (M & G & C & _).
    destruct K as [-> | (_ & K1 & K2 & K3 & _)]; [left; reflexivity|].
    right. right. right. left. unfold phase. rewrite K3, M, C. auto.
  - destruct HC as (M & G & C & _). destruct K as (K1 & K2 & K3 & _).
    right. right. right. right. left. unfold phase. rewrite K2, K3, M, C. auto.
  - destruct K as (K1 & K2 & K3 & _). left. unfold phase. rewrite K1, K2, K3. reflexivity.
  - destruct K as (K1 & K2 & K3 & _). left. unfold phase. rewrite K1, K2, K3. reflexivity.
  - destruct K as (K1 & K2 & K3 & _). left. unfold phase. rewrite K1, K2, K3. reflexivity.
  - destruct K as (K1 & K2 & K3 & _). left. unfold phase. rewrite K1, K2, K3. reflexivity.
Qed.

(** A callback leaves the document as it is, or a render commits the
    buttons of the state it has made. *)
Lemma handle_page_cases s e h :
  handle s e = Some h -> page h = page s \/ page h = buttons h.
Proof.
  intros H. destruct e; callbacks; simpl in H.
  8: { destruct (sockets s !! i) as [k|]; [|discriminate].
       destruct (is_open (readyState k)); [|discriminate]. injection H as <-.
       left. apply onmessage_page. }
  all: split_cases; simpl in *; simplify_eq; simpl; auto.
Qed.

Lemma calibrated_buttons s :
  isCalibrated s = true -> existsb (Button_eqb Calibrate) (buttons s) = false.
Proof.
  intros C. unfold buttons. rewrite C.
  destruct (isCalibrating s), (isMeasuring s); reflexivity.
Qed.

(** Once the document has lost the Calibrate button, [isCalibrated] stays
    true; the camera stays on once it is on. *)
Lemma step_keeps_calibrated s e s' :
  reachable s -> step s e = Some s' ->
  (isCalibrated s = true -> existsb (Button_eqb Calibrate) (page s) = false ->
   isCalibrated s' = true /\ existsb (Button_eqb Calibrate) (page s') = false) /\
  (showCamera s = true -> showCamera s' = true).
Proof.
  intros R H. destruct (step_handle _ _ _ H) as (h & Hh & ->).
  pose proof (commit_frame (isMeasuring s) h) as F. cbv zeta in F.
  destruct F as (F0&_&_&_&_&_&F2&_). rewrite F0, F2, commit_page.
  pose proof (handle_phase_flags _ _ _ Hh) as K.
  pose proof (handle_click _ _ _ (reachable_page _ R) Hh) as HC.
  assert (KC : (isCalibrated s = true ->
                existsb (Button_eqb Calibrate) (page s) = false ->
                isCalibrated h = true) /\
               (showCamera s = true -> showCamera h = true)).
  { destruct e; simpl in Hh.
    8: { destruct (sockets s !! i) as [k|]; [|discriminate].
         destruct (is_open (readyState k)); [|discriminate]. injection Hh as <-.
         pose proof (onmessage_fields (closure_isMeasuring k) data s) as G.
         pose proof (onmessage_frame (closure_isMeasuring k) data s) as (GC&_).
         cbv zeta in G. destruct G as (_&_&_&G2&_). rewrite G2, GC.
         split; [|auto]. intros -> _.
         destruct (truthy_field id (success data) && mentions_calibration data);
           reflexivity. }
    - destruct HC as (Pg & _). split.
      + intros _ NP. rewrite Pg in NP. discriminate.
      + destruct K as [-> | (_ & _ & _ & _ & K4)]; auto.
    - destruct K as (_ & K2 & _ & K4). rewrite K2, K4. auto.
    - destruct K as [-> | (_ & _ & K2 & _ & K4)]; [auto|]. rewrite K2, K4. auto.
    - destruct K as (_ & K2 & _ & K4). rewrite K2, K4. auto.
    - destruct K as (_ & K2 & _ & K4). rewrite K2, K4. auto.
    - destruct K as (_ & K2 & _ & K4). rewrite K2, K4. auto.
    - destruct K as (_ & K2 & _ & K4). rewrite K2, K4. auto.
    - destruct K as (_ & K2 & _ & K4). rewrite K2, K4. auto. }
  destruct KC as [KC1 KC2]. split; [|assumption].
  intros C NP. split; [auto|].
  destruct (handle_page_cases _ _ _ Hh) as [-> | ->]; [assumption|].
  apply calibrated_buttons. auto.
Qed.

(** X2.  When a calibration is for the life of the session.  From a
    calibrated state whose document has lost the Calibrate button, no run
    of events leads to a state that is not calibrated: the phase stays
    Calibrated or Measuring and the Calibrate button cannot be pressed
    again.  While the document still shows the Calibrate button, the
    completion message having been handled before its render is committed,
    a press on an open channel does take the calibration back:
    [setIsCalibrated(false)] takes effect and the session is Calibrating. *)
Theorem calibration_is_permanent s :
  reachable s ->
  isCalibrated s = true ->
  (existsb (Button_eqb Calibrate) (page s) = false ->
   forall evs s',
     run evs s = Some s' ->
     isCalibrated s' = true /\
     (phase s' = Calibrated \/ phase s' = Measuring) /\
     step s' ClickCalibrate = None) /\
  (existsb (Button_eqb Calibrate) (page s) = true ->
   ws_is_open s = true ->
   exists s',
     step s ClickCalibrate = Some s' /\
     isCalibrated s' = false /\ phase s' = Calibrating /\ page s' = [Capture]).
Proof.
  intros R C. split.
  - intros NP evs s' H.
    assert (C' : isCalibrated s' = true /\
                 existsb (Button_eqb Calibrate) (page s') = false).
    { revert s R C NP H. induction evs as [|e evs IH]; simpl; intros s R C NP H.
      - injection H as <-. auto.
      - destruct (step s e) as [s1|] eqn:E; [|discriminate].
        destruct (step_keeps_calibrated _ _ _ R E) as [K _].
        destruct (K C NP) as [C1 NP1].
        apply (IH s1); [eapply reachable_step; eauto | | | ]; assumption. }
    destruct C' as [C' NP']. split; [assumption|]. split.
    + unfold phase. rewrite C'. destruct (isMeasuring s'); auto.
    + unfold step, handle, clickable.
      rewrite NP', (calibrated_buttons _ C'). reflexivity.
  - intros P O.
    destruct (reachable_page _ R)
      as [(Pg & M & G & Sh) | [(Pg & _) | [(Pg & _) | (Pg & _)]]];
      try (rewrite Pg in P; discriminate).
    exists (commit (isMeasuring s) (render (startCalibration s))).
    split.
    + unfold step, handle, clickable, after_click. rewrite P, O. reflexivity.
    + pose proof (commit_frame (isMeasuring s) (render (startCalibration s))) as F.
      cbv zeta in F. rewrite commit_page.
      destruct F as (_&_&_&_&_&F1&F2&_&F3&_).
      unfold phase. rewrite F1, F2, F3.
      unfold startCalibration, ws_send. rewrite O.
      destruct (ws s); unfold render, buttons; simpl; rewrite M; auto.
Qed.

(** X5.  In every state of a mounted session the render of the state has
    exactly one of the four action buttons, the one of the phase. *)
Theorem one_button_per_phase s :
  reachable s ->
  buttons s =
    [match phase s with
     | Idle => Calibrate
     | Calibrating => Capture
     | Calibrated => MeasureDistance
     | Measuring => StopMeasuring
     end].
Proof.
  intros R. destruct (reachable_inv _ R) as [[A B C _ _] _].
  unfold buttons, phase.
  destruct (isMeasuring s), (isCalibrated s), (isCalibrating s); simpl;
    try reflexivity;
    try (specialize (A eq_refl)); try (specialize (B eq_refl)); discriminate.
Qed.

(** X6.  The frame interval never leaks.  While measuring exactly one
    interval runs, the one [detectionInterval] holds; while not measuring
    none runs and the ref is empty. *)
Theorem one_interval_while_measuring s :
  reachable s ->
  if isMeasuring s
  then exists t, detectionInterval s = Some t /\ timers s = [t]
  else detectionInterval s = None /\ timers s = [].
Proof.
  intros R. destruct (reachable_inv _ R) as [[_ _ _ D E] _].
  rewrite E, D. destruct (detectionInterval s) as [t|]; eauto.
Qed.

(** X14.  No stale closure.  Whatever socket a message arrives on, it is the
    socket the ref holds, and the [onmessage] that handles it was made in
    the render whose [isMeasuring] is the current one. *)
Theorem message_closure_is_current s i data s' :
  reachable s ->
  step s (WsMessage i data) = Some s' ->
  ws s = Some i /\ s' = onmessage (isMeasuring s) data s.
Proof.
  intros R H. destruct (step_message _ _ _ _ H) as (k & Hk & O & ->).
  destruct (open_socket_is_current _ _ _ R Hk O) as [W C].
  rewrite C. auto.
Qed.

Lemma count_sent_app p a b :
  count_sent p (a ++ b)%list = count_sent p a + count_sent p b.
Proof. unfold count_sent. rewrite List.filter_app, length_app. reflexivity. Qed.

(** A callback raises [frameCountRef] by one for a frame it sends and not
    otherwise. *)
Lemma handle_frame_count s e h :
  handle s e = Some h ->
  exists d,
    sent h = (sent s ++ d)%list /\
    frameCountRef h = frameCountRef s + count_sent is_frame d.
Proof.
  intros H. destruct e; callbacks; simpl in H.
  8: { destruct (sockets s !! i) as [k|]; [|discriminate].
       destruct (is_open (readyState k)); [|discriminate]. injection H as <-.
       pose proof (onmessage_frame (closure_isMeasuring k) data s) as (_&_&_&_&_&F1&_&_&_&F2&_).
       exists []. rewrite F1, F2, app_nil_r. split; [reflexivity | unfold count_sent; simpl; lia]. }
  all: split_cases; simpl in *; simplify_eq; simpl;
    first [ exists []; rewrite app_nil_r; split; [reflexivity | unfold count_sent; simpl; lia]
          | eexists [_]; split; [reflexivity | unfold count_sent; simpl; lia] ].
Qed.

Lemma step_frame_count s e s' :
  step s e = Some s' ->
  exists d,
    sent s' = (sent s ++ d)%list /\
    frameCountRef s' = frameCountRef s + count_sent is_frame d.
Proof.
  intros H. destruct (step_handle _ _ _ H) as (h & Hh & ->).
  pose proof (commit_frame (isMeasuring s) h) as F. cbv zeta in F.
  destruct F as (_&_&_&_&_&_&_&_&_&_&F1&_&_&F2). rewrite F1, F2.
  apply handle_frame_count with (e := e). assumption.
Qed.

(** X8.  The frame counter counts the frames.  Over any run of the events
    modelled here (button presses, socket events, ticks of the frame
    interval; the once-a-second sampler that reads and resets the counter
    is not one of them) the list of sent messages only grows, and
    [frameCountRef] grows by the number of frames among the messages the
    run sent. *)
Theorem frame_counter_counts_frames evs : forall s s',
  run evs s = Some s' ->
  sent s' = (sent s ++ sent_by s s')%list /\
  frameCountRef s' = frameCountRef s + count_sent is_frame (sent_by s s').
Proof.
  induction evs as [|e evs IH]; simpl; intros s s' H.
  - injection H as <-. unfold sent_by. rewrite drop_all.
    rewrite app_nil_r. split; [reflexivity | unfold count_sent; simpl; lia].
  - destruct (step s e) as [s1|] eqn:E; [|discriminate].
    destruct (step_frame_count _ _ _ E) as (d & D1 & D2).
    destruct (IH _ _ H) as [I1 I2].
    assert (S : sent s' = (sent s ++ (d ++ sent_by s1 s'))%list)
      by (rewrite I1, D1, <- app_assoc; reflexivity).
    rewrite (sent_by_app _ _ _ S). split; [exact S|].
    rewrite count_sent_app. lia.
Qed.

(** What [startCalibration] does, by the state of the channel. *)
Lemma calibrate_fields s :
  if ws_is_open s then
    exists k,
      ws s = Some k /\
      sent (startCalibration s) = (sent s ++ [(k, Command "start_calibration")])%list /\
      isCalibrating (startCalibration s) = true /\
      isCalibrated (startCalibration s) = false /\
      isMeasuring (startCalibration s) = isMeasuring s /\
      showCamera (startCalibration s) = true /\
      statusMessage (startCalibration s) =
        "🧍 Stand at one-arm distance and click 'Capture'"
  else startCalibration s = s.
Proof.
  unfold startCalibration, ws_send.
  destruct (ws_is_open s) eqn:O; [|reflexivity].
  unfold ws_is_open in O. destruct (ws s) as [k|]; [|discriminate].
  exists k. repeat split; reflexivity.
Qed.

(** X9.  The Calibrate button.  In the Idle phase the button can be
    pressed.  With the channel open the press sends
    [{command: "start_calibration"}] on it, shows the camera, sets the
    instruction text and moves the session to Calibrating; with the channel
    not open the press changes nothing at all. *)
Theorem calibrate_needs_open_channel s :
  phase s = Idle ->
  exists s',
    step s ClickCalibrate = Some s' /\
    if ws_is_open s then
      phase s' = Calibrating /\ showCamera s' = true /\
      statusMessage s' = "🧍 Stand at one-arm distance and click 'Capture'" /\
      exists k, ws s = Some k /\ sent_by s s' = [(k, Command "start_calibration")]
    else s' = s.
Proof.
  intros P. unfold phase in P.
  destruct (isMeasuring s) eqn:M; [discriminate|].
  destruct (isCalibrated s) eqn:C; [discriminate|].
  destruct (isCalibrating s) eqn:G; [discriminate|].
  exists (commit (isMeasuring s) (after_click (ws_is_open s) (startCalibration s))).
  split.
  - unfold step. simpl. rewrite (clickable_calibrate _ C G). reflexivity.
  - pose proof (calibrate_fields s) as F. unfold after_click.
    destruct (ws_is_open s).
    + destruct F as (k & W & F1 & F2 & F3 & F4 & F5 & F6).
      rewrite commit_same by assumption.
      repeat split; try assumption.
      * unfold phase. simpl. rewrite F4, F3, F2, M. reflexivity.
      * exists k. split; [assumption|]. apply sent_by_app. assumption.
    + rewrite F. apply commit_same. reflexivity.
Qed.

Lemma unmarked_text_is_not_the_marker data :
  mentions_calibration data = true ->
  exists m, message data = Some m /\ truthy_string m = true.
Proof.
  unfold mentions_calibration. destruct (message data) as [m|]; [|discriminate].
  intros H. exists m. split; [reflexivity|]. apply marker_text_is_truthy. assumption.
Qed.

(** X11.  Which text wins.  After a message the status message is the
    error text when the message has a non-empty [error], else the
    message's own status text when that is not empty, else what it was.
    The confirmation text that the calibration branch sets is always
    replaced by [data.message] before the handler returns, so the [success]
    flag and the marker have no influence on the status. *)
Theorem status_text_precedence s i data s' :
  step s (WsMessage i data) = Some s' ->
  statusMessage s' =
    match error data with
    | Some e =>
        if truthy_string e then "Error: " +:+ e
        else match message data with
             | Some m => if truthy_string m then m else statusMessage s
             | None => statusMessage s
             end
    | None =>
        match message data with
        | Some m => if truthy_string m then m else statusMessage s
        | None => statusMessage s
        end
    end.
Proof.
  intros H. by_fields H data s. rewrite Fstatus.
  destruct (truthy_field id (success data) && mentions_calibration data) eqn:T;
    [|reflexivity].
  apply andb_true_iff in T. destruct T as [_ T].
  destruct (unmarked_text_is_not_the_marker _ T) as (m & -> & ->).
  reflexivity.
Qed.

Lemma append_cons c a b : String c a +:+ b = String c (a +:+ b).
Proof. reflexivity. Qed.

Lemma prefix_app n : forall h,
  String.prefix n h = true <-> exists post, h = n +:+ post.
Proof.
  induction n as [|c n IH]; intros h.
  - destruct h; simpl; (split; [intros _; eexists; reflexivity | reflexivity]).
  - destruct h as [|d h]; simpl;
      [split; [discriminate | intros [post H]; discriminate]|].
    destruct (ascii_dec c d) as [->|Ne].
    + rewrite IH. split; intros [post H]; exists post;
        rewrite append_cons in *; congruence.
    + split; [discriminate|].
      intros [post H]. rewrite append_cons in H. congruence.
Qed.

Lemma includes_app hay needle :
  includes hay needle = true <-> exists pre post, hay = pre +:+ needle +:+ post.
Proof.
  induction hay as [|c hay IH].
  - change (includes EmptyString needle)
      with (String.prefix needle EmptyString || false).
    rewrite orb_false_r, prefix_app. split.
    + intros [post H]. exists EmptyString, post. assumption.
    + intros (pre & post & H). destruct pre as [|a pre]; [|discriminate].
      exists post. assumption.
  - change (includes (String c hay) needle)
      with (String.prefix needle (String c hay) || includes hay needle).
    rewrite orb_true_iff, prefix_app, IH. split.
    + intros [[post H] | (pre & post & H)].
      * exists EmptyString, post. assumption.
      * exists (String c pre), post. rewrite append_cons. congruence.
    + intros (pre & post & H). destruct pre as [|a pre].
      * left. exists post. assumption.
      * right. exists pre, post. rewrite append_cons in H. congruence.
Qed.

(** X12.  The completion test is a substring test on the lower-cased
    status text: a message passes it exactly when it has a [message] whose
    text, with [A]-[Z] folded to lower case, contains
    "calibration complete" as a contiguous piece. *)
Theorem marker_test_is_substring_test data :
  mentions_calibration data = true <->
  exists m pre post,
    message data = Some m /\
    toLowerCase m = pre +:+ "calibration complete" +:+ post.
Proof.
  unfold mentions_calibration, calibration_marker.
  destruct (message data) as [m|].
  - rewrite includes_app. split.
    + intros (pre & post & H). exists m, pre, post. auto.
    + intros (m' & pre & post & [= <-] & H). eauto.
  - split; [discriminate | intros (m & _ & _ & H & _); discriminate].
Qed.

(** X13.  The connection status follows the last socket event, whichever
    socket it comes from.  A close or error event of a socket that the ref
    no longer holds sets the status to "disconnected" or "error" although
    the channel in use is exactly as open as before. *)
Theorem stale_socket_event_overwrites_status s j k e s' :
  ws s = Some k ->
  j <> k ->
  e = WsClose j \/ e = WsError j ->
  step s e = Some s' ->
  connectionStatus s' =
    match e with WsClose _ => "disconnected" | _ => "error" end /\
  ws s' = ws s /\ ws_is_open s' = ws_is_open s /\ sent s' = sent s.
Proof.
  intros W Ne [-> | ->] H; unfold step in H; simpl in H;
    destruct (sockets s !! j) as [c|] eqn:E; try discriminate.
  - assert (s' = onclose (set_readyState j CLOSED s)) as ->.
    { destruct (readyState c); try discriminate; injection H as <-;
        apply commit_same; unfold set_readyState; rewrite E; reflexivity. }
    unfold set_readyState, ws_is_open. rewrite E. simpl. rewrite W.
    rewrite list_lookup_insert_ne by assumption. auto.
  - injection H as <-. rewrite commit_same by reflexivity. auto.
Qed.

(** Every write of the connection status is one of three texts. *)
Lemma handle_connection_status s e h :
  handle s e = Some h ->
  connectionStatus h = connectionStatus s \/
  connectionStatus h = "connected" \/
  connectionStatus h = "disconnected" \/
  connectionStatus h = "error".
Proof.
  intros H. destruct e; callbacks; simpl in H.
  8: { destruct (sockets s !! i) as [k|]; [|discriminate].
       destruct (is_open (readyState k)); [|discriminate]. injection H as <-.
       left. apply (onmessage_frame (closure_isMeasuring k) data s). }
  all: split_cases; simpl in *; simplify_eq; simpl; auto.
Qed.

(** X15.  The connection status is always one of "disconnected",
    "connected" and "error". *)
Theorem connection_status_values s :
  reachable s ->
  connectionStatus s = "disconnected" \/
  connectionStatus s = "connected" \/
  connectionStatus s = "error".
Proof.
  intros R. induction R as [|s e s' R IH H] using reachable_induction.
  - left. reflexivity.
  - destruct (step_handle _ _ _ H) as (h & Hh & ->).
    pose proof (commit_frame (isMeasuring s) h) as F. cbv zeta in F.
    destruct F as (_&_&_&_&F&_). rewrite F.
    destruct (handle_connection_status _ _ _ Hh) as [-> | [-> | [-> | ->]]]; auto.
Qed.

(** The flags of the calibration and the camera change in two ways only. *)
Lemma step_calibration_flags s e s' :
  reachable s ->
  step s e = Some s' ->
  (isCalibrating s' = isCalibrating s /\ isCalibrated s' = isCalibrated s /\
   showCamera s' = showCamera s /\
   (e = ClickCalibrate -> sent s' = sent s)) \/
  (e = ClickCalibrate /\ showCamera s = false /\
   isCalibrating s' = true /\ showCamera s' = true /\
   exists k, sent s' = (sent s ++ [(k, Command "start_calibration")])%list) \/
  (isCalibrating s' = false /\ isCalibrated s' = true /\
   showCamera s' = showCamera s /\ exists i data, e = WsMessage i data).
Proof.
  intros R H. destruct (step_handle _ _ _ H) as (h & Hh & ->).
  pose proof (commit_frame (isMeasuring s) h) as F. cbv zeta in F.
  destruct F as (F0&_&_&_&_&F1&F2&_&_&_&_&_&_&F3). rewrite F0, F1, F2, F3.
  pose proof (handle_phase_flags _ _ _ Hh) as K.
  pose proof (handle_click _ _ _ (reachable_page _ R) Hh) as HC.
  destruct e; simpl in Hh.
  8: { destruct (sockets s !! i) as [k|]; [|discriminate].
       destruct (is_open (readyState k)); [|discriminate]. injection Hh as <-.
       pose proof (onmessage_frame (closure_isMeasuring k) data s)
         as (GC&_&_&_&_&_&_&_&_&_&[[G1 G2] | [G1 G2]]).
       - left. repeat split; try assumption. discriminate.
       - right. right. repeat split; try assumption. eauto. }
  - destruct HC as (_ & _ & _ & C & ->). pose proof (calibrate_fields s) as G.
    unfold after_click. destruct (ws_is_open s).
    + destruct G as (k & _ & G1 & G2 & _ & _ & G3 & _).
      right. left. repeat split; try assumption. eauto.
    + rewrite G. left. auto.
  - destruct K as (K1 & K2 & _ & K4). left. repeat split; try assumption. discriminate.
  - left. destruct K as [-> | (_ & K1 & K2 & _ & K4)];
      repeat split; try assumption; discriminate.
  - destruct K as (K1 & K2 & _ & K4). left. repeat split; try assumption. discriminate.
  - destruct K as (K1 & K2 & _ & K4). left. repeat split; try assumption. discriminate.
  - destruct K as (K1 & K2 & _ & K4). left. repeat split; try assumption. discriminate.
  - destruct K as (K1 & K2 & _ & K4). left. repeat split; try assumption. discriminate.
  - destruct K as (K1 & K2 & _ & K4). left. repeat split; try assumption. discriminate.
Qed.

(** X3.  The calibration is started once.  Among the messages a session
    has sent there is exactly one [{command: "start_calibration"}] when the
    camera is shown and none when it is not; and a message with a snapshot,
    a capture or a frame, is sent only with the camera shown, that is,
    after that one command. *)
Theorem calibration_started_once s :
  reachable s ->
  count_sent (is_command "start_calibration") (sent s) =
    (if showCamera s then 1 else 0) /\
  (forall i m, In (i, m) (sent s) ->
     (forall c, m <> Command c) -> showCamera s = true).
Proof.
  intros R. induction R as [|s e s' R [IH1 IH2] H] using reachable_induction.
  - split; [reflexivity | intros i m []].
  - pose proof (step_keeps_calibrated _ _ _ R H) as [_ Mono].
    destruct (step_calibration_flags _ _ _ R H)
      as [(_ & _ & K3 & KS) | [(-> & C & _ & K4 & k & KS) | (_ & _ & K3 & i & data & ->)]].
    + (* camera unchanged *)
      assert (D : sent s' = sent s \/
                  exists i m, sent s' = (sent s ++ [(i, m)])%list /\
                    is_command "start_calibration" m = false /\
                    ((forall c, m <> Command c) -> showCamera s = true)).
      { destruct (step_sent _ _ _ H) as [[E _] | (i & m & _ & _ & E & _ & K)]; [auto|].
        destruct K as [[-> _] | [(img & _ & -> & _ & C) | [[_ ->] | [[_ ->] | (t & img & _ & -> & _ & C)]]]].
        - left. apply KS. reflexivity.
        - right. exists i, (CommandImage "capture" img). auto.
        - right. exists i, (Command "start_distance"). repeat split; auto.
          intros N. exfalso. eapply N. reflexivity.
        - right. exists i, (Command "stop_all"). repeat split; auto.
          intros N. exfalso. eapply N. reflexivity.
        - right. exists i, (Frame img). auto. }
      rewrite K3. destruct D as [-> | (i & m & -> & D1 & D2)].
      * split; assumption.
      * split.
        -- rewrite count_sent_app, IH1. unfold count_sent. simpl. rewrite D1.
           simpl. lia.
        -- intros i' m' I N. apply in_app_or in I. destruct I as [I | [I | []]].
           ++ eapply IH2; eauto.
           ++ injection I as <- <-. auto.
    + (* the calibrate button, channel open *)
      rewrite K4, KS. split.
      * rewrite count_sent_app, IH1, C. reflexivity.
      * intros; reflexivity.
    + (* a message *)
      assert (E : sent s' = sent s).
      { destruct (step_sent _ _ _ H) as [[E _] | (j & m & _ & _ & _ & _ & K)]; [assumption|].
        destruct K as [[? _] | [(? & ? & _) | [[? _] | [[? _] | (? & ? & ? & _)]]]];
          discriminate. }
      rewrite K3, E. split; assumption.
Qed.

(** A socket keeps the closure it was made with. *)
Lemma set_readyState_closure i r s j k :
  sockets s !! j = Some k ->
  exists k', sockets (set_readyState i r s) !! j = Some k' /\
             closure_isMeasuring k' = closure_isMeasuring k.
Proof.
  intros Hj. unfold set_readyState.
  destruct (sockets s !! i) as [c|] eqn:E; [|eauto]. simpl.
  destruct (decide (i = j)) as [->|Ne].
  - rewrite list_lookup_insert_eq by (eapply lookup_lt_Some; eauto).
    eexists. split; [reflexivity|]. simpl. congruence.
  - rewrite list_lookup_insert_ne by assumption. eauto.
Qed.

Lemma step_closure_stable s e s' j k :
  step s e = Some s' ->
  sockets s !! j = Some k ->
  exists k', sockets s' !! j = Some k' /\
             closure_isMeasuring k' = closure_isMeasuring k.
Proof.
  intros H Hj. destruct (step_handle _ _ _ H) as (h & Hh & ->).
  assert (Hh' : exists k1, sockets h !! j = Some k1 /\
                           closure_isMeasuring k1 = closure_isMeasuring k).
  { destruct (handle_sockets _ _ _ Hh) as [_ [-> | (i & c & r & Hi & _ & ->)]]; [eauto|].
    destruct (decide (i = j)) as [->|Ne].
    - rewrite list_lookup_insert_eq by (eapply lookup_lt_Some; eauto).
      eexists. split; [reflexivity|]. simpl. congruence.
    - rewrite list_lookup_insert_ne by assumption. eauto. }
  destruct Hh' as (k1 & H1 & C1).
  unfold commit. destruct (Bool.eqb (isMeasuring s) (isMeasuring h)); [eauto|].
  assert (Hc : exists k2, sockets (wsEffect_cleanup h) !! j = Some k2 /\
                          closure_isMeasuring k2 = closure_isMeasuring k1).
  { unfold wsEffect_cleanup, ws_close. destruct (ws h) as [w|]; [|eauto].
    destruct (sockets h !! w) as [c|]; [|eauto].
    destruct (is_live (readyState c)); [|eauto].
    apply set_readyState_closure. assumption. }
  destruct Hc as (k2 & H2 & C2).
  exists k2. split; [|congruence].
  unfold wsEffect. simpl. apply lookup_app_l_Some. assumption.
Qed.

(** X4.  Two kinds of connection.  Every message the session has sent went
    out on a socket made by a render with [isMeasuring] true when it is a
    frame or [stop_all], and on a socket made by a render with
    [isMeasuring] false when it is any other command.  So the connection
    that carries the frames of a measurement is never the one that carried
    its [{command: "start_distance"}]. *)
Theorem frames_and_commands_on_separate_connections s :
  reachable s ->
  (forall i m, In (i, m) (sent s) ->
     exists k, sockets s !! i = Some k /\
               closure_isMeasuring k = measuring_message m) /\
  (forall i img, In (i, Frame img) (sent s) ->
     ~ In (i, Command "start_distance") (sent s)).
Proof.
  intros R.
  assert (Q : forall i m, In (i, m) (sent s) ->
            exists k, sockets s !! i = Some k /\
                      closure_isMeasuring k = measuring_message m).
  { induction R as [|s e s' R IH H] using reachable_induction.
    - intros i m [].
    - destruct (reachable_inv _ R) as [[A B _ _ _] (c & cur & W & _ & Hc & Hm & _)].
      assert (Old : forall i m, In (i, m) (sent s) ->
                exists k, sockets s' !! i = Some k /\
                          closure_isMeasuring k = measuring_message m).
      { intros i m I. destruct (IH _ _ I) as (k & Hk & Ck).
        destruct (step_closure_stable _ _ _ _ _ H Hk) as (k' & Hk' & Ck').
        exists k'. split; [assumption | congruence]. }
      destruct (step_sent _ _ _ H) as [[E _] | (i & m & Wi & _ & E & _ & K)];
        rewrite E; [assumption|].
      intros i' m' I. apply in_app_or in I. destruct I as [I | [I | []]]; [auto|].
      injection I as <- <-.
      rewrite W in Wi. injection Wi as <-.
      destruct (step_closure_stable _ _ _ _ _ H Hc) as (k' & Hk' & Ck').
      exists k'. split; [assumption|]. rewrite Ck', Hm.
      destruct (step_handle _ _ _ H) as (h & Hh & _).
      pose proof (handle_click _ _ _ (reachable_page _ R) Hh) as HC.
      destruct K as [[-> ->] | [(img & -> & -> & _) | [[-> ->] | [[-> ->] | (t & img & -> & -> & _)]]]].
      + destruct HC as (_ & -> & _). reflexivity.
      + destruct HC as (_ & -> & _). reflexivity.
      + destruct HC as (-> & _). reflexivity.
      + destruct HC as (-> & _). reflexivity.
      + rewrite (tick_while_measuring _ _ _ _ R H). reflexivity. }
  split; [exact Q|].
  intros i img I1 I2.
  destruct (Q _ _ I1) as (k1 & H1 & C1). destruct (Q _ _ I2) as (k2 & H2 & C2).
  rewrite H1 in H2. injection H2 as <-. rewrite C1 in C2. discriminate.
Qed.

(** X7.  Unmounting releases everything and says nothing.  After the
    cleanups of a mounted session no socket is connecting or open and no
    interval runs; no message is sent, in particular no [stop_all] when the
    session was measuring. *)
Theorem unmount_releases_everything s :
  reachable s ->
  timers (unmount s) = [] /\
  (forall j k, sockets (unmount s) !! j = Some k -> is_live (readyState k) = false) /\
  sent (unmount s) = sent s.
Proof.
  intros R. destruct (reachable_inv _ R) as [[_ _ _ D E] (c & cur & W & _ & _ & _ & Hold)].
  pose proof (cleanup_frame s) as F. cbv zeta in F.
  destruct F as (_&_&_&_&_&_&_&_&_&F1&_&F2&_&F3&_).
  assert (NL : forall j k, sockets (wsEffect_cleanup s) !! j = Some k ->
                 is_live (readyState k) = false).
  { unfold wsEffect_cleanup. rewrite W. intros j k. apply ws_close_not_live. assumption. }
  unfold unmount. rewrite F1.
  destruct (detectionInterval s) as [t|]; simpl.
  - rewrite F2, D. simpl. rewrite Pos.eqb_refl. auto.
  - rewrite F2, D. auto.
Qed.

(** What [startMeasuringDistance] writes when the channel is open. *)
Lemma measure_fields s k :
  ws_is_open s = true ->
  ws s = Some k ->
  let s' := startMeasuringDistance s in
  isMeasuring s' = true /\ isCalibrated s' = isCalibrated s /\
  isCalibrating s' = isCalibrating s /\
  currentDistance s' = currentDistance s /\
  processedImage s' = processedImage s /\
  statusMessage s' = "📏 Measuring distance..." /\
  detectionInterval s' = Some (nextTimer s) /\
  timers s' = (timers s ++ [nextTimer s])%list /\
  sent s' = (sent s ++ [(k, Command "start_distance")])%list /\
  ws s' = Some k /\ sockets s' = sockets s.
Proof.
  intros O W. unfold startMeasuringDistance, ws_send, setInterval.
  rewrite O. destruct s; simpl in *. subst. simpl. repeat split; reflexivity.
Qed.

(** The effect and the document do not see each other. *)
Lemma commit_set_page b deps s :
  commit deps (set_page b s) = set_page b (commit deps s).
Proof.
  unfold commit, wsEffect, wsEffect_cleanup, ws_close, set_readyState. simpl.
  destruct (Bool.eqb deps (isMeasuring s)); [reflexivity|].
  destruct (ws s) as [i|]; [|reflexivity].
  destruct (sockets s !! i) as [k|]; [|reflexivity]. simpl.
  destruct (is_live (readyState k)); [|reflexivity]. simpl.
  destruct (sockets s !! i); reflexivity.
Qed.

(** What the turn of a Measure click leaves, before its render, when the
    channel is open. *)
Lemma measure_commit_fields s :
  reachable s ->
  phase s = Calibrated ->
  ws_is_open s = true ->
  let s' := commit (isMeasuring s) (startMeasuringDistance s) in
  phase s' = Measuring /\
  currentDistance s' = currentDistance s /\
  exists k t,
    ws s = Some k /\ sent_by s s' = [(k, Command "start_distance")] /\
    timers s' = [t] /\ detectionInterval s' = Some t /\
    (exists c, sockets s' !! k = Some c /\ readyState c = CLOSING) /\
    ws s' = Some (S k) /\
    (exists c, sockets s' !! S k = Some c /\ readyState c = CONNECTING) /\
    ws_is_open s' = false.
Proof.
  intros R P O. cbv zeta. unfold phase in P.
  destruct (isMeasuring s) eqn:M; [discriminate|].
  destruct (isCalibrated s) eqn:C; [|destruct (isCalibrating s); discriminate].
  destruct (reachable_inv _ R) as [[_ _ _ D E] (k & cur & W & L & Hc & _ & _)].
  pose proof (measure_fields s k O W) as F. cbv zeta in F.
  destruct F as (F1&F2&F3&F4&F5&F6&F7&F8&F9&F10&F11).
  pose proof (commit_frame false (startMeasuringDistance s)) as G.
  cbv zeta in G. destruct G as (_&G1&_&_&_&_&G2&_&G3&G4&_&G5&_&G6).
  assert (T : timers s = []).
  { rewrite D. rewrite M in E. destruct (detectionInterval s); [discriminate|reflexivity]. }
  assert (Cur : is_open (readyState cur) = true).
  { unfold ws_is_open in O. rewrite W, Hc in O. assumption. }
  split; [unfold phase; rewrite G3, F1; reflexivity|].
  split; [congruence|].
  exists k, (nextTimer s).
  split; [assumption|].
  split; [apply sent_by_app; congruence|].
  split; [rewrite G5, F8, T; reflexivity|].
  split; [congruence|].
  rewrite commit_changed by (rewrite F1; discriminate).
  assert (Lv : is_live (readyState cur) = true)
    by (destruct (readyState cur); simpl in *; congruence).
  assert (SC : sockets (wsEffect_cleanup (startMeasuringDistance s)) =
               <[k := {| readyState := CLOSING;
                         closure_isMeasuring := closure_isMeasuring cur |}]>
                 (sockets s)).
  { unfold wsEffect_cleanup. rewrite F10.
    unfold ws_close. rewrite F11, Hc, Lv.
    unfold set_readyState. rewrite F11, Hc. reflexivity. }
  unfold wsEffect, ws_is_open. simpl. rewrite SC, length_insert, L.
  split.
  { eexists. split.
    - rewrite lookup_app_l by (rewrite length_insert; lia).
      apply list_lookup_insert_eq. lia.
    - reflexivity. }
  split; [reflexivity|].
  assert (New : forall x : Socket,
            (<[k := {| readyState := CLOSING;
                       closure_isMeasuring := closure_isMeasuring cur |}]>
               (sockets s) ++ [x])%list !! S k = Some x).
  { intros x. rewrite lookup_app_r by (rewrite length_insert; lia).
    rewrite length_insert, L, Nat.sub_diag. reflexivity. }
  split.
  { eexists. split; [apply New|]. reflexivity. }
  rewrite New. reflexivity.
Qed.

(** X10.  The Measure button.  In the Calibrated phase the button can be
    pressed.  With the channel open the press sends
    [{command: "start_distance"}] on it, starts the one frame interval and
    moves the session to Measuring; the change of [isMeasuring] then
    replaces the connection, so the socket that took the command is
    closing, the ref holds a new socket that is still connecting, and the
    channel is not open right after the press.  With the channel not open
    the press changes nothing at all. *)
Theorem measure_needs_open_channel s :
  reachable s ->
  phase s = Calibrated ->
  exists s',
    step s ClickMeasure = Some s' /\
    if ws_is_open s then
      phase s' = Measuring /\
      currentDistance s' = currentDistance s /\
      exists k t,
        ws s = Some k /\ sent_by s s' = [(k, Command "start_distance")] /\
        timers s' = [t] /\ detectionInterval s' = Some t /\
        (exists c, sockets s' !! k = Some c /\ readyState c = CLOSING) /\
        ws s' = Some (S k) /\
        (exists c, sockets s' !! S k = Some c /\ readyState c = CONNECTING) /\
        ws_is_open s' = false
    else s' = s.
Proof.
  intros R P.
  exists (commit (isMeasuring s) (after_click (ws_is_open s) (startMeasuringDistance s))).
  split.
  - unfold phase in P.
    destruct (isMeasuring s) eqn:M; [discriminate|].
    destruct (isCalibrated s) eqn:C; [|destruct (isCalibrating s); discriminate].
    unfold step. simpl. rewrite (clickable_measure _ C M), M. reflexivity.
  - destruct (ws_is_open s) eqn:O.
    + unfold after_click, render. rewrite commit_set_page.
      exact (measure_commit_fields s R P O).
    + assert (startMeasuringDistance s = s) as ->
        by (unfold startMeasuringDistance; rewrite O; reflexivity).
      apply commit_same. reflexivity.
Qed.

(** X16.  [send] is never called on a socket that is not open.  A turn of
    the event loop sends nothing or one message, and a message goes out on
    the socket the ref holds, which is open at that moment. *)
Theorem sends_only_on_the_open_socket s e s' :
  step s e = Some s' ->
  sent s' = (sent s ++ sent_by s s')%list /\
  (sent_by s s' = [] \/
   exists i m k,
     sent_by s s' = [(i, m)] /\ ws s = Some i /\
     sockets s !! i = Some k /\ readyState k = OPEN).
Proof.
  intros H. destruct (step_sent _ _ _ H) as [[E ->] | (i & m & W & O & E & -> & _)].
  - rewrite app_nil_r. auto.
  - split; [assumption|]. right.
    unfold ws_is_open in O. rewrite W in O.
    destruct (sockets s !! i) as [k|] eqn:Hk; [|discriminate].
    exists i, m, k. repeat split; try assumption.
    destruct (readyState k); simpl in O; congruence.
Qed.

(** X17.  What the distance display can read: "0m", "Calculating...", or a
    positive number followed by "m".  A distance that is zero or negative
    is never shown as a number. *)
Theorem display_values s :
  reachable s ->
  currentDistance s = "0m" \/
  currentDistance s = "Calculating..." \/
  exists d, PrimFloat.ltb 0%float d = true /\
            currentDistance s = number_to_string d +:+ "m".
Proof.
  intros R. induction R as [|s e s' R IH H] using reachable_induction.
  - left. reflexivity.
  - destruct (step_handle _ _ _ H) as (h & Hh & ->).
    pose proof (commit_frame (isMeasuring s) h) as F. cbv zeta in F.
    destruct F as (_&F&_). rewrite F.
    pose proof (handle_display _ _ _ Hh) as K.
    destruct e; simpl in Hh.
    1-3, 5-7, 9: destruct K as [-> _]; assumption.
    + destruct (clickable StopMeasuring s); [|discriminate]. injection Hh as <-.
      left. change (currentDistance (stopMeasuringDistance s) = "0m").
      apply (stop_fields s).
    + destruct (sockets s !! i) as [k|]; [|discriminate].
      destruct (is_open (readyState k)); [|discriminate]. injection Hh as <-.
      pose proof (onmessage_fields (closure_isMeasuring k) data s) as G.
      cbv zeta in G. destruct G as (_&_&_&_&G&_). rewrite G.
      destruct (faces data) as [[|f fs]|]; try assumption.
      destruct (truthy_field id (success data) && closure_isMeasuring k);
        [|assumption].
      unfold distance_text. destruct (distance f) as [d|]; [|auto].
      destruct (PrimFloat.ltb 0 d) eqn:L; eauto.
Qed.


End Runtime.

(** * Examples

    The scenarios of the specification, and for every statement above a run
    of the session it applies to. *)

#[local] Set Warnings "-inexact-float".

(** A stand-in for [Number::toString] on the two numbers the scenarios of
    the specification use; the theorems above hold for every runtime. *)
Definition example_number_to_string (x : float) : string :=
  if PrimFloat.eqb x 1.2%float then "1.2"
  else if PrimFloat.eqb x 450.2%float then "450.2"
  else "0".

Definition snapshot : string := "data:image/jpeg;base64,/9j/4AAQSkZJRg".
Definition annotated : string := "data:image/jpeg;base64,/9j/4AAQSkZJRh".

(** [{"success": true, "message": "Calibration complete", "focal_length": 450.2}] *)
Definition calibration_reply : InMsg :=
  {| success := Some true; processed_image := None;
     focal_length := Some 450.2%float; faces := None;
     message := Some "Calibration complete"; error := None |}.

(** [{"success": true, "faces": [{"distance": d}]}] *)
Definition detection (d : float) : InMsg :=
  {| success := Some true; processed_image := None; focal_length := None;
     faces := Some [ {| distance := Some d |} ]; message := None; error := None |}.

(** The session up to the capture, up to the end of the calibration, and
    up to the first frame of a measurement. *)
Definition calibrating_trace : list Event :=
  [WsOpen 0; ClickCalibrate; ClickCapture (Some snapshot)].
Definition calibrated_trace : list Event :=
  (calibrating_trace ++ [WsMessage 0 calibration_reply])%list.
Definition measuring_trace : list Event :=
  (calibrated_trace ++ [ClickMeasure; WsOpen 1; IntervalTick 1 (Some snapshot)])%list.

Definition state_after (evs : list Event) : State :=
  match run example_number_to_string evs mount with
  | Some s => s
  | None => mount
  end.

Lemma state_after_reachable evs :
  run example_number_to_string evs mount = Some (state_after evs) ->
  reachable example_number_to_string (state_after evs).
Proof. intros H. exists evs. exact H. Defined.

(** ** The scenarios of the specification *)

(** Idle, calibrate, capture, and the service's reply: Calibrated, the
    focal length 450.2, and the reply's own completion text as status (the
    text set by the calibration branch is replaced by [data.message]). *)
Example scenario_calibration :
  let s := state_after calibrated_trace in
  run example_number_to_string calibrated_trace mount = Some s /\
  phase s = Calibrated /\ focalLength s = 450.2%float /\
  statusMessage s = "Calibration complete" /\
  sent s = [(0, Command "start_calibration"); (0, CommandImage "capture" snapshot)].
Proof. vm_compute. repeat split; reflexivity. Qed.

(** Measuring, and a detection at 1.2: the display reads "1.2m". *)
Example scenario_distance :
  option_map currentDistance
    (run example_number_to_string
       (measuring_trace ++ [WsMessage 1 (detection 1.2%float)])%list mount)
  = Some "1.2m".
Proof. vm_compute. reflexivity. Qed.

(** Measuring, and a detection at 0: the display reads "Calculating...". *)
Example scenario_calculating :
  option_map currentDistance
    (run example_number_to_string
       (measuring_trace ++ [WsMessage 1 (detection 0%float)])%list mount)
  = Some "Calculating...".
Proof. vm_compute. reflexivity. Qed.

(** ** C1 *)

(** Against C1 as stated: after the calibration, pressing "Measure
    Distance" leaves the session with two sockets made since the mount, the
    first one closing and the second one connecting. *)
Lemma second_connection_on_measure :
  exists s,
    (forall number_to_string,
       run number_to_string (calibrated_trace ++ [ClickMeasure])%list mount = Some s) /\
    length (sockets s) = 2 /\
    sockets s = [ {| readyState := CLOSING; closure_isMeasuring := false |};
                  {| readyState := CONNECTING; closure_isMeasuring := true |} ].
Proof.
  eexists. split; [intros nts; vm_compute; reflexivity|].
  split; reflexivity.
Qed.

Lemma connection_reopens_only_on_measuring_change_witness :
  let s := state_after calibrated_trace in
  let s' := state_after (calibrated_trace ++ [ClickMeasure])%list in
  length (sockets mount) = 1 /\
  length (sockets s') =
    length (sockets s) + (if Bool.eqb (isMeasuring s) (isMeasuring s') then 0 else 1) /\
  (isMeasuring s' <> isMeasuring s -> ClickMeasure = ClickMeasure \/ ClickMeasure = ClickStop) /\
  (forall j sock,
     sockets s' !! j = Some sock -> is_live (readyState sock) = true ->
     ws s' = Some j).
Proof.
  cbv zeta.
  refine (connection_reopens_only_on_measuring_change example_number_to_string
            (state_after calibrated_trace) ClickMeasure
            (state_after (calibrated_trace ++ [ClickMeasure])%list) _ _).
  - apply state_after_reachable. vm_compute. reflexivity.
  - vm_compute. reflexivity.
Defined.

(** ** C2 *)

(** [{"success": true, "processed_image": ...}] *)
Definition annotated_result : InMsg :=
  {| success := Some true; processed_image := Some annotated;
     focal_length := None; faces := None; message := None; error := None |}.

(** Against C2 as stated: the measurement is stopped, the new connection
    opens, and a successful message with an image arrives on it.  The
    session is not measuring and shows the image. *)
Lemma image_restored_after_stop :
  exists s s1 s2,
    (forall number_to_string,
       run number_to_string measuring_trace mount = Some s /\
       step number_to_string s ClickStop = Some s1 /\
       run number_to_string [WsOpen 2; WsMessage 2 annotated_result] s1 = Some s2) /\
    processedImage s1 = None /\
    existsb is_click_measure [WsOpen 2; WsMessage 2 annotated_result] = false /\
    phase s2 = Calibrated /\
    processedImage s2 = Some annotated.
Proof.
  eexists _, _, _. split.
  - intros nts. split; [vm_compute; reflexivity|].
    split; vm_compute; reflexivity.
  - repeat split; reflexivity.
Qed.

Lemma display_after_stop_witness :
  let s := state_after measuring_trace in
  let evs := [WsOpen 2; WsMessage 2 (detection 1.2%float); WsClose 0] in
  let s2 := state_after (measuring_trace ++ ClickStop :: evs)%list in
  isMeasuring s2 = false /\
  currentDistance s2 = "0m" /\
  (forall j data, j < length (sockets s) ->
     step example_number_to_string s2 (WsMessage j data) = None) /\
  (existsb carries_image evs = false -> processedImage s2 = None).
Proof.
  cbv zeta.
  refine (display_after_stop example_number_to_string
            (state_after measuring_trace)
            (state_after (measuring_trace ++ [ClickStop])%list)
            [WsOpen 2; WsMessage 2 (detection 1.2%float); WsClose 0]
            (state_after (measuring_trace ++
               ClickStop :: [WsOpen 2; WsMessage 2 (detection 1.2%float); WsClose 0])%list)
            _ _ _ _).
  - apply state_after_reachable. vm_compute. reflexivity.
  - vm_compute. reflexivity.
  - vm_compute. reflexivity.
  - vm_compute. reflexivity.
Defined.

(** ** C3 *)

(** Against C3 as stated: the connection drops while measuring, and the
    stop button then sends nothing; the display is cleared all the same. *)
Lemma stop_on_dropped_channel_sends_nothing :
  exists s s',
    (forall number_to_string,
       run number_to_string (measuring_trace ++ [WsClose 1])%list mount = Some s /\
       step number_to_string s ClickStop = Some s') /\
    phase s = Measuring /\
    sent s' = sent s /\
    (forall i, ~ In (i, Command "stop_all") (sent s')) /\
    phase s' = Calibrated /\ currentDistance s' = "0m".
Proof.
  eexists _, _. split.
  - intros nts. split; vm_compute; reflexivity.
  - repeat split; try reflexivity.
    intros i. simpl. intros [H|[H|[H|[H|[]]]]]; discriminate.
Qed.

Lemma stop_clears_display_witness :
  let s := state_after (measuring_trace ++ [WsMessage 1 (detection 1.2%float)])%list in
  exists s' k,
    step example_number_to_string s ClickStop = Some s' /\ ws s = Some k /\
    sent s' = (sent s ++ sent_by s s')%list /\
    sent_by s s' = (if ws_is_open s then [(k, Command "stop_all")] else []) /\
    timers s' = [] /\ detectionInterval s' = None /\
    currentDistance s' = "0m" /\ processedImage s' = None /\
    phase s' = Calibrated.
Proof.
  cbv zeta.
  refine (stop_clears_display example_number_to_string
            (state_after (measuring_trace ++ [WsMessage 1 (detection 1.2%float)])%list)
            _ _).
  - apply state_after_reachable. vm_compute. reflexivity.
  - vm_compute. reflexivity.
Defined.

(** ** C4 *)

Lemma frames_only_while_measuring_witness :
  let s := state_after (calibrated_trace ++ [ClickMeasure; WsOpen 1])%list in
  let e := IntervalTick 1 (Some snapshot) in
  let s' := state_after measuring_trace in
  sent s' = (sent s ++ sent_by s s')%list /\
  (forall i img,
     In (i, Frame img) (sent_by s s') ->
     phase s = Measuring /\ ws_is_open s = true /\ ws s = Some i /\
     sent_by s s' = [(i, Frame img)] /\
     exists t, e = IntervalTick t (Some img)) /\
  (forall t shot,
     e = IntervalTick t shot ->
     phase s = Measuring /\
     (webcamRef s = false \/ ws_is_open s = false \/
      truthy_field truthy_string shot = false -> s' = s)).
Proof.
  cbv zeta.
  refine (frames_only_while_measuring example_number_to_string
            (state_after (calibrated_trace ++ [ClickMeasure; WsOpen 1])%list)
            (IntervalTick 1 (Some snapshot))
            (state_after measuring_trace) _ _).
  - apply state_after_reachable. vm_compute. reflexivity.
  - vm_compute. reflexivity.
Defined.

(** ** C5 *)

(** [{"message": "Processing frame"}] *)
Definition status_only : InMsg :=
  {| success := None; processed_image := None; focal_length := None;
     faces := None; message := Some "Processing frame"; error := None |}.

Lemma absent_field_keeps_value_witness :
  let s := state_after (measuring_trace ++ [WsMessage 1 (detection 1.2%float)])%list in
  let s' := state_after (measuring_trace ++ [WsMessage 1 (detection 1.2%float);
                                             WsMessage 1 status_only])%list in
  (focal_length status_only = None -> focalLength s' = focalLength s) /\
  (processed_image status_only = None -> processedImage s' = processedImage s) /\
  (faces status_only = None -> currentDistance s' = currentDistance s) /\
  (message status_only = None -> error status_only = None ->
   statusMessage s' = statusMessage s).
Proof.
  cbv zeta.
  refine (absent_field_keeps_value example_number_to_string
            (state_after (measuring_trace ++ [WsMessage 1 (detection 1.2%float)])%list)
            1 status_only
            (state_after (measuring_trace ++ [WsMessage 1 (detection 1.2%float);
                                              WsMessage 1 status_only])%list) _).
  vm_compute. reflexivity.
Defined.

(** ** C6 *)

(** [{"message": "Calibration complete", "focal_length": 450.2}], the reply
    of the scenario without its [success] flag. *)
Definition unflagged_reply : InMsg :=
  {| success := None; processed_image := None;
     focal_length := Some 450.2%float; faces := None;
     message := Some "Calibration complete"; error := None |}.

(** Against C6 as stated: while calibrating, a message whose status text
    has the marker but which has no [success] flag leaves the session
    calibrating and the focal length at 0. *)
Lemma marker_without_success_is_ignored :
  exists s s',
    (forall number_to_string,
       run number_to_string calibrating_trace mount = Some s /\
       step number_to_string s (WsMessage 0 unflagged_reply) = Some s') /\
    phase s = Calibrating /\
    mentions_calibration unflagged_reply = true /\
    phase s' = Calibrating /\
    focalLength s' = 0%float.
Proof.
  eexists _, _. split.
  - intros nts. split; vm_compute; reflexivity.
  - repeat split; reflexivity.
Qed.

Lemma calibration_completes_on_success_witness :
  let s := state_after calibrating_trace in
  let s' := state_after calibrated_trace in
  phase s' = Calibrated /\
  isCalibrating s' = false /\
  focalLength s' =
    match focal_length calibration_reply with
    | Some f => if truthy_number f then f else focalLength s
    | None => focalLength s
    end /\
  match error calibration_reply with
  | Some e =>
      if truthy_string e then statusMessage s' = "Error: " +:+ e
      else includes (toLowerCase (statusMessage s')) calibration_marker = true
  | None => includes (toLowerCase (statusMessage s')) calibration_marker = true
  end.
Proof.
  cbv zeta.
  refine (calibration_completes_on_success example_number_to_string
            (state_after calibrating_trace) 0 calibration_reply
            (state_after calibrated_trace) "Calibration complete" _ _ _ _ _).
  all: vm_compute; reflexivity.
Defined.

(** ** C7 *)

(** [{"faces": [{"distance": d}]}], a detection without the [success] flag. *)
Definition unflagged_detection (d : float) : InMsg :=
  {| success := None; processed_image := None; focal_length := None;
     faces := Some [ {| distance := Some d |} ]; message := None; error := None |}.

(** Against C7 as stated: while measuring, detections that come without a
    [success] flag leave the display at "0m", for a distance of 0 (no
    "Calculating...") and for a distance of 1.2 alike. *)
Lemma detection_without_success_is_ignored :
  exists s s' s'',
    (forall number_to_string,
       run number_to_string measuring_trace mount = Some s /\
       step number_to_string s (WsMessage 1 (unflagged_detection 0%float)) = Some s' /\
       step number_to_string s (WsMessage 1 (unflagged_detection 1.2%float)) = Some s'') /\
    phase s = Measuring /\
    currentDistance s' = "0m" /\ currentDistance s' <> "Calculating..." /\
    currentDistance s'' = "0m".
Proof.
  eexists _, _, _. split.
  - intros nts. split; [vm_compute; reflexivity|].
    split; vm_compute; reflexivity.
  - repeat split; try reflexivity. discriminate.
Qed.

Lemma distance_display_follows_first_detection_witness :
  let s := state_after measuring_trace in
  let data := detection 1.2%float in
  let s' := state_after (measuring_trace ++ [WsMessage 1 (detection 1.2%float)])%list in
  currentDistance s' =
    match success data, faces data with
    | Some true, Some (f :: _) =>
        match distance f with
        | Some d =>
            if PrimFloat.ltb 0%float d then example_number_to_string d +:+ "m"
            else "Calculating..."
        | None => "Calculating..."
        end
    | _, _ => currentDistance s
    end.
Proof.
  cbv zeta.
  refine (distance_display_follows_first_detection example_number_to_string
            (state_after measuring_trace) 1 (detection 1.2%float)
            (state_after (measuring_trace ++ [WsMessage 1 (detection 1.2%float)])%list)
            _ _ _).
  - apply state_after_reachable. vm_compute. reflexivity.
  - vm_compute. reflexivity.
  - vm_compute. reflexivity.
Defined.

(** ** C8 *)

(** [{"success": true, "message": "Calibration complete", "error": "low light"}] *)
Definition reply_with_error : InMsg :=
  {| success := Some true; processed_image := None; focal_length := None;
     faces := None; message := Some "Calibration complete";
     error := Some "low light" |}.

(** [{"error": "No face detected"}] *)
Definition error_only : InMsg :=
  {| success := None; processed_image := None; focal_length := None;
     faces := None; message := None; error := Some "No face detected" |}.

(** Against C8 as stated: while calibrating, a message with an [error]
    field that also reports the calibration as complete moves the session
    to Calibrated. *)
Lemma error_with_completion_changes_phase :
  exists s s',
    (forall number_to_string,
       run number_to_string calibrating_trace mount = Some s /\
       step number_to_string s (WsMessage 0 reply_with_error) = Some s') /\
    error reply_with_error = Some "low light" /\
    phase s = Calibrating /\
    phase s' = Calibrated /\
    statusMessage s' = "Error: low light".
Proof.
  eexists _, _. split.
  - intros nts. split; vm_compute; reflexivity.
  - repeat split; reflexivity.
Qed.

Lemma error_text_is_surfaced_witness :
  let s := state_after calibrating_trace in
  let data := error_only in
  let e := "No face detected" in
  let s' := state_after (calibrating_trace ++ [WsMessage 0 error_only])%list in
  includes (statusMessage s') e = true /\
  (e <> EmptyString -> statusMessage s' = "Error: " +:+ e) /\
  isMeasuring s' = isMeasuring s /\
  (truthy_field id (success data) && mentions_calibration data = false ->
   phase s' = phase s) /\
  (truthy_field id (success data) && mentions_calibration data = true ->
   isCalibrated s' = true /\ isCalibrating s' = false).
Proof.
  cbv zeta.
  refine (error_text_is_surfaced example_number_to_string
            (state_after calibrating_trace) 0 error_only
            (state_after (calibrating_trace ++ [WsMessage 0 error_only])%list)
            "No face detected" _ _).
  all: vm_compute; reflexivity.
Defined.

(** ** C9 *)



(** ** C10 *)

(** [{"success": false, "processed_image": ..., "focal_length": 450.2,
      "faces": [{"distance": 1.2}], "message": "Calibration complete",
      "error": "No face detected"}] *)
Definition failed_reply : InMsg :=
  {| success := Some false; processed_image := Some annotated;
     focal_length := Some 450.2%float;
     faces := Some [ {| distance := Some 1.2%float |} ];
     message := Some "Calibration complete";
     error := Some "No face detected" |}.

Lemma unsuccessful_message_changes_status_only_witness :
  let s := state_after calibrating_trace in
  let data := failed_reply in
  let s' := state_after (calibrating_trace ++ [WsMessage 0 failed_reply])%list in
  processedImage s' = processedImage s /\
  focalLength s' = focalLength s /\
  isCalibrating s' = isCalibrating s /\
  isCalibrated s' = isCalibrated s /\
  isMeasuring s' = isMeasuring s /\
  currentDistance s' = currentDistance s /\
  s' = setStatusMessage (statusMessage s') s /\
  (truthy_field truthy_string (message data) = false ->
   truthy_field truthy_string (error data) = false ->
   statusMessage s' = statusMessage s).
Proof.
  cbv zeta.
  refine (unsuccessful_message_changes_status_only example_number_to_string
            (state_after calibrating_trace) 0 failed_reply
            (state_after (calibrating_trace ++ [WsMessage 0 failed_reply])%list) _ _).
  - vm_compute. reflexivity.
  - right. reflexivity.
Defined.

(** ** Further properties: a run for each *)

Lemma phase_transitions_witness :
  let s := state_after [WsOpen 0; WsMessage 0 calibration_reply] in
  let e := ClickCalibrate in
  let s' := state_after [WsOpen 0; WsMessage 0 calibration_reply; ClickCalibrate] in
  phase s' = phase s \/
  (phase s = Idle /\ phase s' = Calibrating /\ e = ClickCalibrate) \/
  ((phase s = Idle \/ phase s = Calibrating) /\ phase s' = Calibrated /\
   exists i data, e = WsMessage i data /\ success data = Some true /\
                  mentions_calibration data = true) \/
  (phase s = Calibrated /\ phase s' = Measuring /\ e = ClickMeasure) \/
  (phase s = Measuring /\ phase s' = Calibrated /\ e = ClickStop) \/
  (phase s = Calibrated /\ phase s' = Calibrating /\ e = ClickCalibrate /\
   page s = [Calibrate] /\ ws_is_open s = true).
Proof.
  cbv zeta.
  refine (phase_transitions example_number_to_string
            (state_after [WsOpen 0; WsMessage 0 calibration_reply])
            ClickCalibrate
            (state_after [WsOpen 0; WsMessage 0 calibration_reply; ClickCalibrate])
            _ _).
  - apply state_after_reachable. vm_compute. reflexivity.
  - vm_compute. reflexivity.
Defined.

Lemma calibration_is_permanent_witness :
  (let s' := state_after (measuring_trace ++ [ClickStop; WsOpen 2])%list in
   isCalibrated s' = true /\
   (phase s' = Calibrated \/ phase s' = Measuring) /\
   step example_number_to_string s' ClickCalibrate = None) /\
  (let s := state_after [WsOpen 0; WsMessage 0 calibration_reply] in
   exists s',
     step example_number_to_string s ClickCalibrate = Some s' /\
     isCalibrated s' = false /\ phase s' = Calibrating /\ page s' = [Capture]).
Proof.
  cbv zeta. split.
  - refine (proj1 (calibration_is_permanent example_number_to_string
                     (state_after calibrated_trace) _ _) _
              [ClickMeasure; WsOpen 1; IntervalTick 1 (Some snapshot); ClickStop; WsOpen 2]
              (state_after (measuring_trace ++ [ClickStop; WsOpen 2])%list) _).
    + apply state_after_reachable. vm_compute. reflexivity.
    + vm_compute. reflexivity.
    + vm_compute. reflexivity.
    + vm_compute. reflexivity.
  - refine (proj2 (calibration_is_permanent example_number_to_string
                     (state_after [WsOpen 0; WsMessage 0 calibration_reply]) _ _) _ _).
    + apply state_after_reachable. vm_compute. reflexivity.
    + vm_compute. reflexivity.
    + vm_compute. reflexivity.
    + vm_compute. reflexivity.
Defined.

Lemma calibration_started_once_witness :
  let s := state_after measuring_trace in
  count_sent (is_command "start_calibration") (sent s) =
    (if showCamera s then 1 else 0) /\
  (forall i m, In (i, m) (sent s) ->
     (forall c, m <> Command c) -> showCamera s = true).
Proof.
  cbv zeta.
  refine (calibration_started_once example_number_to_string
            (state_after measuring_trace) _).
  apply state_after_reachable. vm_compute. reflexivity.
Defined.

Lemma frames_and_commands_on_separate_connections_witness :
  let s := state_after measuring_trace in
  (forall i m, In (i, m) (sent s) ->
     exists k, sockets s !! i = Some k /\
               closure_isMeasuring k = measuring_message m) /\
  (forall i img, In (i, Frame img) (sent s) ->
     ~ In (i, Command "start_distance") (sent s)).
Proof.
  cbv zeta.
  refine (frames_and_commands_on_separate_connections example_number_to_string
            (state_after measuring_trace) _).
  apply state_after_reachable. vm_compute. reflexivity.
Defined.

Lemma one_button_per_phase_witness :
  let s := state_after calibrating_trace in
  buttons s =
    [match phase s with
     | Idle => Calibrate
     | Calibrating => Capture
     | Calibrated => MeasureDistance
     | Measuring => StopMeasuring
     end].
Proof.
  cbv zeta.
  refine (one_button_per_phase example_number_to_string
            (state_after calibrating_trace) _).
  apply state_after_reachable. vm_compute. reflexivity.
Defined.

Lemma one_interval_while_measuring_witness :
  let s := state_after measuring_trace in
  if isMeasuring s
  then exists t, detectionInterval s = Some t /\ timers s = [t]
  else detectionInterval s = None /\ timers s = [].
Proof.
  cbv zeta.
  refine (one_interval_while_measuring example_number_to_string
            (state_after measuring_trace) _).
  apply state_after_reachable. vm_compute. reflexivity.
Defined.

Lemma unmount_releases_everything_witness :
  let s := state_after measuring_trace in
  timers (unmount s) = [] /\
  (forall j k, sockets (unmount s) !! j = Some k -> is_live (readyState k) = false) /\
  sent (unmount s) = sent s.
Proof.
  cbv zeta.
  refine (unmount_releases_everything example_number_to_string
            (state_after measuring_trace) _).
  apply state_after_reachable. vm_compute. reflexivity.
Defined.

Lemma frame_counter_counts_frames_witness :
  let s := state_after calibrated_trace in
  let s' := state_after (measuring_trace ++ [IntervalTick 1 (Some snapshot)])%list in
  sent s' = (sent s ++ sent_by s s')%list /\
  frameCountRef s' = frameCountRef s + count_sent is_frame (sent_by s s').
Proof.
  cbv zeta.
  refine (frame_counter_counts_frames example_number_to_string
            [ClickMeasure; WsOpen 1; IntervalTick 1 (Some snapshot);
             IntervalTick 1 (Some snapshot)]
            (state_after calibrated_trace)
            (state_after (measuring_trace ++ [IntervalTick 1 (Some snapshot)])%list) _).
  vm_compute. reflexivity.
Defined.

Lemma calibrate_needs_open_channel_witness :
  let s := state_after [WsOpen 0] in
  exists s',
    step example_number_to_string s ClickCalibrate = Some s' /\
    if ws_is_open s then
      phase s' = Calibrating /\ showCamera s' = true /\
      statusMessage s' = "🧍 Stand at one-arm distance and click 'Capture'" /\
      exists k, ws s = Some k /\ sent_by s s' = [(k, Command "start_calibration")]
    else s' = s.
Proof.
  cbv zeta.
  refine (calibrate_needs_open_channel example_number_to_string
            (state_after [WsOpen 0]) _).
  vm_compute. reflexivity.
Defined.

Lemma measure_needs_open_channel_witness :
  let s := state_after calibrated_trace in
  exists s',
    step example_number_to_string s ClickMeasure = Some s' /\
    if ws_is_open s then
      phase s' = Measuring /\
      currentDistance s' = currentDistance s /\
      exists k t,
        ws s = Some k /\ sent_by s s' = [(k, Command "start_distance")] /\
        timers s' = [t] /\ detectionInterval s' = Some t /\
        (exists c, sockets s' !! k = Some c /\ readyState c = CLOSING) /\
        ws s' = Some (S k) /\
        (exists c, sockets s' !! S k = Some c /\ readyState c = CONNECTING) /\
        ws_is_open s' = false
    else s' = s.
Proof.
  cbv zeta.
  refine (measure_needs_open_channel example_number_to_string
            (state_after calibrated_trace) _ _).
  - apply state_after_reachable. vm_compute. reflexivity.
  - vm_compute. reflexivity.
Defined.

Lemma status_text_precedence_witness :
  let s := state_after calibrating_trace in
  let data := reply_with_error in
  let s' := state_after (calibrating_trace ++ [WsMessage 0 reply_with_error])%list in
  statusMessage s' =
    match error data with
    | Some e =>
        if truthy_string e then "Error: " +:+ e
        else match message data with
             | Some m => if truthy_string m then m else statusMessage s
             | None => statusMessage s
             end
    | None =>
        match message data with
        | Some m => if truthy_string m then m else statusMessage s
        | None => statusMessage s
        end
    end.
Proof.
  cbv zeta.
  refine (status_text_precedence example_number_to_string
            (state_after calibrating_trace) 0 reply_with_error
            (state_after (calibrating_trace ++ [WsMessage 0 reply_with_error])%list) _).
  vm_compute. reflexivity.
Defined.

(** The header says the session is not connected during a measurement whose
    channel is open: the old socket's close event came after the new
    socket's open event. *)
Lemma stale_socket_event_overwrites_status_witness :
  let s := state_after (calibrated_trace ++ [ClickMeasure; WsOpen 1])%list in
  let e := WsClose 0 in
  let s' := state_after (calibrated_trace ++ [ClickMeasure; WsOpen 1; WsClose 0])%list in
  connectionStatus s' =
    match e with WsClose _ => "disconnected" | _ => "error" end /\
  ws s' = ws s /\ ws_is_open s' = ws_is_open s /\ sent s' = sent s.
Proof.
  cbv zeta.
  refine (stale_socket_event_overwrites_status example_number_to_string
            (state_after (calibrated_trace ++ [ClickMeasure; WsOpen 1])%list)
            0 1 (WsClose 0)
            (state_after (calibrated_trace ++ [ClickMeasure; WsOpen 1; WsClose 0])%list)
            _ _ _ _).
  - vm_compute. reflexivity.
  - discriminate.
  - left. reflexivity.
  - vm_compute. reflexivity.
Defined.

Lemma message_closure_is_current_witness :
  let s := state_after measuring_trace in
  let data := detection 1.2%float in
  let s' := state_after (measuring_trace ++ [WsMessage 1 (detection 1.2%float)])%list in
  ws s = Some 1 /\ s' = onmessage example_number_to_string (isMeasuring s) data s.
Proof.
  cbv zeta.
  refine (message_closure_is_current example_number_to_string
            (state_after measuring_trace) 1 (detection 1.2%float)
            (state_after (measuring_trace ++ [WsMessage 1 (detection 1.2%float)])%list)
            _ _).
  - apply state_after_reachable. vm_compute. reflexivity.
  - vm_compute. reflexivity.
Defined.

Lemma connection_status_values_witness :
  let s := state_after (measuring_trace ++ [WsError 1])%list in
  connectionStatus s = "disconnected" \/
  connectionStatus s = "connected" \/
  connectionStatus s = "error".
Proof.
  cbv zeta.
  refine (connection_status_values example_number_to_string
            (state_after (measuring_trace ++ [WsError 1])%list) _).
  apply state_after_reachable. vm_compute. reflexivity.
Defined.

Lemma sends_only_on_the_open_socket_witness :
  let s := state_after calibrated_trace in
  let s' := state_after (calibrated_trace ++ [ClickMeasure])%list in
  sent s' = (sent s ++ sent_by s s')%list /\
  (sent_by s s' = [] \/
   exists i m k,
     sent_by s s' = [(i, m)] /\ ws s = Some i /\
     sockets s !! i = Some k /\ readyState k = OPEN).
Proof.
  cbv zeta.
  refine (sends_only_on_the_open_socket example_number_to_string
            (state_after calibrated_trace) ClickMeasure
            (state_after (calibrated_trace ++ [ClickMeasure])%list) _).
  vm_compute. reflexivity.
Defined.

Lemma display_values_witness :
  let s := state_after (measuring_trace ++ [WsMessage 1 (detection 1.2%float)])%list in
  currentDistance s = "0m" \/
  currentDistance s = "Calculating..." \/
  exists d, PrimFloat.ltb 0%float d = true /\
            currentDistance s = example_number_to_string d +:+ "m".
Proof.
  cbv zeta.
  refine (display_values example_number_to_string
            (state_after (measuring_trace ++ [WsMessage 1 (detection 1.2%float)])%list) _).
  apply state_after_reachable. vm_compute. reflexivity.
Defined.
